(** * Shallow embedding of the AUTOCEPNR auto-filler core

    Sources: SITE/AUTOCEPNR_Project/src/core/rules_engine.py (RulesEngine),
    src/core/sabre_screen.py (SabreScreen), src/core/latam_form.py
    (LatamForm) and src/automation/form_filler.py (FormFiller).

    Python [str] values are Stdlib strings.  The character predicates
    ([str.upper], [str.isdigit], [str.isspace] and the regex class [\s])
    are Python's on the ASCII range; other bytes are treated as characters
    that are neither letters, digits nor white space.

    [rules_engine.py] is checked in with an unresolved merge: the HEAD side
    (lines 2-268) and the 7a10112 side (lines 270-537) share the final line
    538.  The two sides differ only in the name-correction heuristics
    ([_is_orthographic_correction], [_is_inverted_names],
    [_is_addition_correction]); both are embedded below, in the modules
    [Head] and [Side7a10112]. *)

From Stdlib Require Import String Ascii List Bool Arith Lia.
From Stdlib Require Import Numbers.DecimalString.
Import ListNotations.
Open Scope string_scope.
Open Scope bool_scope.

(** ** Python string primitives *)

Module Py.

Definition is_lower (c : ascii) : bool :=
  (Nat.leb 97 (nat_of_ascii c)) && (Nat.leb (nat_of_ascii c) 122).

Definition is_upper (c : ascii) : bool :=
  (Nat.leb 65 (nat_of_ascii c)) && (Nat.leb (nat_of_ascii c) 90).

Definition is_digit (c : ascii) : bool :=
  (Nat.leb 48 (nat_of_ascii c)) && (Nat.leb (nat_of_ascii c) 57).

(** [str.isspace] on ASCII: \t \n \v \f \r, \x1c-\x1f and the space. *)
Definition is_space (c : ascii) : bool :=
  let n := nat_of_ascii c in
  ((Nat.leb 9 n) && (Nat.leb n 13)) || ((Nat.leb 28 n) && (Nat.leb n 32)).

Definition upper_char (c : ascii) : ascii :=
  if is_lower c then ascii_of_nat (nat_of_ascii c - 32) else c.

Definition lower_char (c : ascii) : ascii :=
  if is_upper c then ascii_of_nat (nat_of_ascii c + 32) else c.

(** [s.upper()] *)
Fixpoint upper (s : string) : string :=
  match s with
  | EmptyString => EmptyString
  | String c s' => String (upper_char c) (upper s')
  end.

(** [s.isdigit()]: non-empty and every character a digit. *)
Definition isdigit (s : string) : bool :=
  match s with
  | EmptyString => false
  | _ => forallb is_digit (list_ascii_of_string s)
  end.

(** [x in xs] for a list of strings. *)
Definition mem (x : string) (xs : list string) : bool :=
  existsb (String.eqb x) xs.

(** [s[:n]] and [s[n:]]. *)
Definition take (n : nat) (s : string) : string := substring 0 n s.
Definition drop (n : nat) (s : string) : string := substring n (String.length s - n) s.

(** [s.split()]: split on runs of white space, dropping empty pieces.
    [cur] holds the reversed characters of the current piece. *)
Fixpoint split_ws_aux (cur : list ascii) (s : string) : list string :=
  match s with
  | EmptyString =>
      match cur with [] => [] | _ => [string_of_list_ascii (rev cur)] end
  | String c s' =>
      if is_space c then
        match cur with
        | [] => split_ws_aux [] s'
        | _ => string_of_list_ascii (rev cur) :: split_ws_aux [] s'
        end
      else split_ws_aux (c :: cur) s'
  end.

Definition split_ws (s : string) : list string := split_ws_aux [] s.

(** [s.split(sep)] for a one-character separator: keeps empty pieces. *)
Fixpoint split_on_aux (sep : ascii) (cur : list ascii) (s : string) : list string :=
  match s with
  | EmptyString => [string_of_list_ascii (rev cur)]
  | String c s' =>
      if Ascii.eqb c sep
      then string_of_list_ascii (rev cur) :: split_on_aux sep [] s'
      else split_on_aux sep (c :: cur) s'
  end.

Definition split_on (sep : ascii) (s : string) : list string := split_on_aux sep [] s.

(** [sep.join(xs)] *)
Fixpoint join (sep : string) (xs : list string) : string :=
  match xs with
  | [] => EmptyString
  | [x] => x
  | x :: xs' => x ++ sep ++ join sep xs'
  end.

(** [sub in s] *)
Definition contains (sub s : string) : bool :=
  match String.index 0 sub s with Some _ => true | None => false end.

(** [s.replace(old, "")] for a non-empty [old]: every non-overlapping
    occurrence, scanned from the left, is removed.  [skip] counts the
    characters of an occurrence still to be dropped. *)
Fixpoint replace_empty_aux (old : string) (skip : nat) (s : string) : string :=
  match s with
  | EmptyString => EmptyString
  | String c s' =>
      match skip with
      | S k => replace_empty_aux old k s'
      | O =>
          if String.prefix old s
          then replace_empty_aux old (String.length old - 1) s'
          else String c (replace_empty_aux old 0 s')
      end
  end.

Definition replace_empty (old s : string) : string := replace_empty_aux old 0 s.

(** [str(n)] for a non-negative int. *)
Definition str_of_nat (n : nat) : string :=
  NilEmpty.string_of_uint (Nat.to_uint n).

End Py.

(** ** [ValidationResult] (rules_engine.py, dataclass) *)

Record ValidationResult := mkVR {
  is_valid : bool;
  error_message : option string;
  suggested_action : option string
}.

Definition ok : ValidationResult := mkVR true None None.
Definition fail (m a : string) : ValidationResult := mkVR false (Some m) (Some a).

(** A Python dict with string keys and values, as an association list;
    [dict_get d k dflt] is [d.get(k, dflt)]. *)
Definition dict := list (string * string).

Fixpoint dict_get (d : dict) (k dflt : string) : string :=
  match d with
  | [] => dflt
  | (k', v) :: d' => if String.eqb k k' then v else dict_get d' k dflt
  end.

(** ** [RulesEngine]: the field checks (rules_engine.py, identical on
    both sides of the merge) *)

Module RulesEngine.

(** [_validate_pic_authorization] *)
Definition valid_codes : list string := ["PIC_S23"; "PIC_S24"; "PIC_S25"].

Definition _validate_pic_authorization (auth_code : string) : bool :=
  Py.mem auth_code valid_codes.

(** [validate_estouro_classe(extracted_data)] *)
Definition validate_estouro_classe (extracted_data : dict) : ValidationResult :=
  let class_original := Py.upper (dict_get extracted_data "classe" "") in
  let auth_code := Py.upper (dict_get extracted_data "auth_code" "") in
  if negb (Py.mem class_original ["Q"; "S"; "Y"]) then
    fail ("Classe " ++ class_original ++ " não é elegível para estouro de classe")
         "Verificar classe original da reserva"
  else if negb (_validate_pic_authorization auth_code) then
    fail ("Código de autorização " ++ auth_code ++ " não permite estouro de classe")
         "Verificar autorização PIC no Sabre"
  else ok.

(** The character class [[A-Z0-9]] (no IGNORECASE flag). *)
Definition pnr_class (c : ascii) : bool := Py.is_upper c || Py.is_digit c.

(** [re.match(r'^[A-Z0-9]{6}$', s)]: six class characters from the start,
    then the end of the string or a final newline ([$]). *)
Fixpoint class_prefix (n : nat) (s : string) : option string :=
  match n with
  | O => Some s
  | S n' =>
      match s with
      | EmptyString => None
      | String c s' => if pnr_class c then class_prefix n' s' else None
      end
  end.

Definition pnr_regex_match (s : string) : bool :=
  match class_prefix 6 s with
  | Some rest => String.eqb rest "" || String.eqb rest (String "010"%char "")
  | None => false
  end.

(** [validate_pnr_format(pnr)] *)
Definition validate_pnr_format (pnr : string) : ValidationResult :=
  if String.eqb pnr "" || negb (Nat.eqb (String.length pnr) 6) then
    fail ("PNR inválido: " ++ pnr)
         "Verificar formato do PNR (6 caracteres alfanuméricos)"
  else if negb (pnr_regex_match pnr) then
    fail ("PNR contém caracteres inválidos: " ++ pnr)
         "PNR deve conter apenas letras maiúsculas e números"
  else ok.

(** [validate_flight_status(status)] *)
Definition valid_statuses : list string := ["HK"; "SA"].

Definition validate_flight_status (status : string) : ValidationResult :=
  if negb (Py.mem (Py.upper status) valid_statuses) then
    fail ("Status de voo " ++ status ++ " não permite estouro de classe")
         "Apenas status HK ou SA são permitidos"
  else ok.

(** [validate_date_format(date_str)]; [now_year] is
    [datetime.now().year], read from the clock at each call. *)
Definition month_map : list (string * string) :=
  [("JAN", "01"); ("FEV", "02"); ("MAR", "03"); ("ABR", "04");
   ("MAI", "05"); ("JUN", "06"); ("JUL", "07"); ("AGO", "08");
   ("SET", "09"); ("OUT", "10"); ("NOV", "11"); ("DEZ", "12")].

Fixpoint lookup (k : string) (m : list (string * string)) : option string :=
  match m with
  | [] => None
  | (k', v) :: m' => if String.eqb k k' then Some v else lookup k m'
  end.

Definition validate_date_format (now_year : nat) (date_str : string) : bool * string :=
  if negb (Nat.eqb (String.length date_str) 5) || negb (Py.isdigit (Py.take 2 date_str)) then
    (false, "Formato de data inválido")
  else
    let day := Py.take 2 date_str in
    let month_abbr := Py.upper (Py.drop 2 date_str) in
    match lookup month_abbr month_map with
    | None => (false, "Mês inválido: " ++ month_abbr)
    | Some month => (true, day ++ "/" ++ month ++ "/" ++ Py.str_of_nat now_year)
    end.

(** [validate_carrier_code(carrier)] *)
Definition valid_carriers : list string := ["LA"; "LP"; "4C"; "JJ"].

Definition validate_carrier_code (carrier : string) : ValidationResult :=
  if negb (Py.mem (Py.upper carrier) valid_carriers) then
    fail ("Carrier " ++ carrier ++ " não mapeado")
         ("Carrier deve ser um dos: " ++ Py.join ", " valid_carriers)
  else ok.

End RulesEngine.

(** ** [difflib.SequenceMatcher(None, a, b).ratio()] (CPython's difflib,
    called by the HEAD side of [_is_orthographic_correction]).  There is
    no junk predicate, so [bjunk] is empty; the autojunk heuristic drops
    the popular elements of [b] from [b2j] when [len(b) >= 200]. *)

Module Difflib.

Definition item (xs : list ascii) (i : nat) : ascii := nth i xs " "%char.

(** [self.b2j[c]] after [__chain_b]: the ascending indices of [c] in [b],
    or none when [c] is popular. *)
Definition b2j (b : list ascii) (c : ascii) : list nat :=
  let n := length b in
  let idxs := filter (fun j => Ascii.eqb (item b j) c) (seq 0 n) in
  if Nat.leb 200 n then
    (if Nat.ltb (n / 100 + 1) (length idxs) then [] else idxs)
  else idxs.

Fixpoint nat_get (k : nat) (m : list (nat * nat)) : nat :=
  match m with
  | [] => 0
  | (k', v) :: m' => if Nat.eqb k k' then v else nat_get k m'
  end.

(** [(besti, bestj, bestsize)] *)
Definition match3 := (nat * nat * nat)%type.

(** The inner [for j in b2j.get(a[i], nothing)] loop of
    [find_longest_match]; indices below [blo] are skipped ([continue]),
    the first index at or past [bhi] ends the loop ([break]). *)
Fixpoint inner (i blo bhi : nat) (js : list nat) (j2len newj2len : list (nat * nat))
    (best : match3) : list (nat * nat) * match3 :=
  match js with
  | [] => (newj2len, best)
  | j :: js' =>
      if Nat.ltb j blo then inner i blo bhi js' j2len newj2len best
      else if Nat.leb bhi j then (newj2len, best)
      else
        let k := (match j with O => 0 | S j' => nat_get j' j2len end) + 1 in
        let '(_, _, bestsize) := best in
        let best' := if Nat.ltb bestsize k then (i + 1 - k, j + 1 - k, k) else best in
        inner i blo bhi js' j2len ((j, k) :: newj2len) best'
  end.

(** The outer [for i in range(alo, ahi)] loop. *)
Fixpoint outer (a b : list ascii) (blo bhi : nat) (is : list nat)
    (j2len : list (nat * nat)) (best : match3) : match3 :=
  match is with
  | [] => best
  | i :: is' =>
      let '(newj2len, best') := inner i blo bhi (b2j b (item a i)) j2len [] best in
      outer a b blo bhi is' newj2len best'
  end.

(** The two extension loops over non-junk elements ([bjunk] is empty). *)
Fixpoint extend_left (a b : list ascii) (alo blo : nat) (fuel : nat) (m : match3) : match3 :=
  match fuel with
  | O => m
  | S f =>
      let '(bi, bj, bs) := m in
      if Nat.ltb alo bi && Nat.ltb blo bj && Ascii.eqb (item a (bi - 1)) (item b (bj - 1))
      then extend_left a b alo blo f (bi - 1, bj - 1, bs + 1)
      else m
  end.

Fixpoint extend_right (a b : list ascii) (ahi bhi : nat) (fuel : nat) (m : match3) : match3 :=
  match fuel with
  | O => m
  | S f =>
      let '(bi, bj, bs) := m in
      if Nat.ltb (bi + bs) ahi && Nat.ltb (bj + bs) bhi
         && Ascii.eqb (item a (bi + bs)) (item b (bj + bs))
      then extend_right a b ahi bhi f (bi, bj, bs + 1)
      else m
  end.

Definition find_longest_match (a b : list ascii) (alo ahi blo bhi : nat) : match3 :=
  let m := outer a b blo bhi (seq alo (ahi - alo)) [] (alo, blo, 0) in
  let m := extend_left a b alo blo (length a) m in
  extend_right a b ahi bhi (length a) m.

(** Sum of the sizes of [get_matching_blocks()]: the queue of
    [get_matching_blocks] splits every range around its longest match;
    the sum does not depend on the order the queue is served in. *)
Fixpoint matches (fuel : nat) (a b : list ascii) (alo ahi blo bhi : nat) : nat :=
  match fuel with
  | O => 0
  | S f =>
      let '(i, j, k) := find_longest_match a b alo ahi blo bhi in
      if Nat.eqb k 0 then 0
      else
        k
        + (if Nat.ltb alo i && Nat.ltb blo j then matches f a b alo i blo j else 0)
        + (if Nat.ltb (i + k) ahi && Nat.ltb (j + k) bhi
           then matches f a b (i + k) ahi (j + k) bhi else 0)
  end.

(** [ratio() > 0.70], i.e. [2.0 * M / (len(a) + len(b)) > 0.7]; with
    [len(a) + len(b) = 0] the ratio is [1.0]. *)
Definition ratio_gt_070 (s1 s2 : string) : bool :=
  let a := list_ascii_of_string s1 in
  let b := list_ascii_of_string s2 in
  let t := length a + length b in
  if Nat.eqb t 0 then true
  else Nat.ltb (7 * t) (20 * matches (S (length a)) a b 0 (length a) 0 (length b)).

End Difflib.

(** ** Name correction (rules_engine.py) *)

Module Names.

Fixpoint strs_eqb (xs ys : list string) : bool :=
  match xs, ys with
  | [], [] => true
  | x :: xs', y :: ys' => String.eqb x y && strs_eqb xs' ys'
  | _, _ => false
  end.

(** [set(xs)], kept as the list of first occurrences. *)
Fixpoint dedup_aux (seen : list string) (xs : list string) : list string :=
  match xs with
  | [] => []
  | x :: xs' =>
      if Py.mem x seen then dedup_aux seen xs' else x :: dedup_aux (x :: seen) xs'
  end.

(** [list(dict.fromkeys(xs))] *)
Definition from_keys (xs : list string) : list string := dedup_aux [] xs.

(** [set(xs).issubset(set(ys)) and len(set(ys)) > len(set(xs))] *)
Definition strict_growth (xs ys : list string) : bool :=
  forallb (fun x => Py.mem x ys) xs
  && Nat.ltb (length (from_keys xs)) (length (from_keys ys)).

(** [_normalize_name] (same on both sides of the merge). *)
Definition titles : list string := ["MS"; "MR"; "MSTR"; "JR"; "NETO"; "FILHO"].

Definition _normalize_name (name : string) : string :=
  let name_upper := fold_left (fun acc title => Py.replace_empty title acc) titles (Py.upper name) in
  Py.join " " (Py.split_ws name_upper).

(** [_is_duplication_correction] (same on both sides). *)
Definition _is_duplication_correction (old_name new_name : string) : bool :=
  strs_eqb (Py.split_ws new_name) (from_keys (Py.split_ws old_name)).

(** [_is_agname_correction] (same on both sides). *)
Definition agnames : list string := ["JR"; "NETO"; "FILHO"; "SR"].

Definition _is_agname_correction (old_name new_name : string) : bool :=
  let old_has_agname := existsb (fun ag => Py.contains ag (Py.upper old_name)) agnames in
  let new_has_agname := existsb (fun ag => Py.contains ag (Py.upper new_name)) agnames in
  negb (Bool.eqb old_has_agname new_has_agname).

(** The message of the rejecting branch of [validate_name_correction]. *)
Definition rejected : ValidationResult :=
  fail "Correção de nome requer documentação comprobatória"
       "Anexar documentação para mudança legal (casamento, divórcio, etc.)".

End Names.

(** The HEAD side of the merge (rules_engine.py lines 167-268). *)
Module Head.

(** [_is_orthographic_correction]: [SequenceMatcher(...).ratio() > 0.70]. *)
Definition _is_orthographic_correction (old_name new_name : string) : bool :=
  Difflib.ratio_gt_070 old_name new_name.

(** [_is_inverted_names]: tries the separators [' '] then ['/']. *)
Definition inverted_on (sep : ascii) (old_name new_name : string) : bool :=
  let s := String sep "" in
  if Py.contains s old_name || Py.contains s new_name then
    let old_parts := if Py.contains s old_name then Py.split_on sep old_name else [old_name] in
    let new_parts := if Py.contains s new_name then Py.split_on sep new_name else [new_name] in
    Nat.eqb (length old_parts) (length new_parts) && Nat.ltb 1 (length old_parts)
    && Names.strs_eqb old_parts (rev new_parts)
  else false.

Definition _is_inverted_names (old_name new_name : string) : bool :=
  existsb (fun sep => inverted_on sep old_name new_name) [" "%char; "/"%char].

(** [s.replace('/', ' ')] *)
Definition slash_to_space (s : string) : string :=
  string_of_list_ascii
    (map (fun c => if Ascii.eqb c "/"%char then " "%char else c) (list_ascii_of_string s)).

(** [_is_addition_correction]: splits on white space and slashes. *)
Definition _is_addition_correction (old_name new_name : string) : bool :=
  Names.strict_growth (Py.split_ws (slash_to_space old_name))
                      (Py.split_ws (slash_to_space new_name)).

(** [validate_name_correction(old_name, new_name)] *)
Definition validate_name_correction (old_name new_name : string) : ValidationResult :=
  let old_clean := Names._normalize_name old_name in
  let new_clean := Names._normalize_name new_name in
  if String.eqb old_clean new_clean then ok
  else if _is_orthographic_correction old_clean new_clean then ok
  else if _is_inverted_names old_clean new_clean then ok
  else if _is_addition_correction old_clean new_clean then ok
  else if Names._is_duplication_correction old_clean new_clean then ok
  else if Names._is_agname_correction old_clean new_clean then ok
  else Names.rejected.

End Head.

(** The 7a10112 side of the merge (rules_engine.py lines 435-538). *)
Module Side7a10112.

(** [_is_orthographic_correction]: at most 3 positional differences after
    padding the shorter name with spaces ([ljust]); the loop returns
    [False] as soon as the count passes 3. *)
Fixpoint diff_loop (diff_count : nat) (xs ys : list ascii) : bool :=
  match xs, ys with
  | x :: xs', y :: ys' =>
      if Ascii.eqb x y then diff_loop diff_count xs' ys'
      else if Nat.ltb 3 (S diff_count) then false
      else diff_loop (S diff_count) xs' ys'
  | _, _ => Nat.leb diff_count 3
  end.

Definition ljust (s : string) (n : nat) : list ascii :=
  list_ascii_of_string s ++ repeat " "%char (n - String.length s).

Definition _is_orthographic_correction (old_name new_name : string) : bool :=
  let max_len := Nat.max (String.length old_name) (String.length new_name) in
  diff_loop 0 (ljust old_name max_len) (ljust new_name max_len).

(** [_is_inverted_names]: white-space tokens only. *)
Definition _is_inverted_names (old_name new_name : string) : bool :=
  let old_parts := Py.split_ws old_name in
  let new_parts := Py.split_ws new_name in
  if negb (Nat.eqb (length old_parts) (length new_parts)) then false
  else Names.strs_eqb old_parts (rev new_parts).

(** [_is_addition_correction]: white-space tokens only. *)
Definition _is_addition_correction (old_name new_name : string) : bool :=
  Names.strict_growth (Py.split_ws old_name) (Py.split_ws new_name).

Definition validate_name_correction (old_name new_name : string) : ValidationResult :=
  let old_clean := Names._normalize_name old_name in
  let new_clean := Names._normalize_name new_name in
  if String.eqb old_clean new_clean then ok
  else if _is_orthographic_correction old_clean new_clean then ok
  else if _is_inverted_names old_clean new_clean then ok
  else if _is_addition_correction old_clean new_clean then ok
  else if Names._is_duplication_correction old_clean new_clean then ok
  else if Names._is_agname_correction old_clean new_clean then ok
  else Names.rejected.

End Side7a10112.

(** ** [SabreScreen.detect_sabre_pattern] (sabre_screen.py) *)

Module SabreScreen.

(** Regex atoms of the eight indicator patterns, matched with
    [re.IGNORECASE]. *)
Inductive atom :=
  | Lit (c : ascii)      (* a literal character *)
  | Ws                   (* \s *)
  | AlnumUp.             (* [A-Z0-9] *)

Inductive quant := One | Star.

Definition regex := list (atom * quant).

Definition atom_ok (a : atom) (x : ascii) : bool :=
  match a with
  | Lit c => Ascii.eqb (Py.lower_char x) (Py.lower_char c)
  | Ws => Py.is_space x
  | AlnumUp => Py.is_upper (Py.upper_char x) || Py.is_digit x
  end.

(** Does [pat] match a prefix of [s]?  [Star] backtracks over every
    number of repetitions, so this is the existence of a match. *)
Fixpoint match_prefix (pat : regex) (s : string) : bool :=
  match pat with
  | [] => true
  | (a, One) :: pat' =>
      match s with
      | EmptyString => false
      | String c s' => atom_ok a c && match_prefix pat' s'
      end
  | (a, Star) :: pat' =>
      (fix go (s : string) : bool :=
         match_prefix pat' s
         || match s with
            | EmptyString => false
            | String c s' => atom_ok a c && go s'
            end) s
  end.

(** [re.search(pat, s, re.IGNORECASE)]: a match starting at some position
    [0 .. len(s)]. *)
Fixpoint search (pat : regex) (s : string) : bool :=
  match_prefix pat s
  || match s with
     | EmptyString => false
     | String _ s' => search pat s'
     end.

Definition lit (w : string) : regex :=
  map (fun c => (Lit c, One)) (list_ascii_of_string w).

Definition ws_star : regex := [(Ws, Star)].

(** [sabre_indicators] *)
Definition sabre_indicators : list regex :=
  [ (lit "Reserva" ++ ws_star ++ lit "-" ++ ws_star ++ repeat (AlnumUp, One) 6)%list;
    lit "Nomes";
    (lit "Voo" ++ ws_star ++ lit "(CIA)")%list;
    (lit "Voo" ++ ws_star ++ lit "(Numero)")%list;
    lit "Cls";
    lit "De-Para";
    lit "Data";
    (lit "Stp" ++ ws_star ++ lit "Nbr")%list ].

(** [found_indicators] after the loop. *)
Definition found_indicators (extracted_text : string) : nat :=
  length (filter (fun p => search p extracted_text) sabre_indicators).

(** [detect_sabre_pattern()]: [raw_image] is [self.raw_image]
    ([None] when unset); [gray_ok im] tells whether
    [cv2.cvtColor(im, COLOR_BGR2GRAY)] returns (when it raises, the
    [except] branch returns [False]). *)
Definition detect_sabre_pattern {Img : Type} (gray_ok : Img -> bool)
    (raw_image : option Img) (extracted_text : string) : bool :=
  match raw_image with
  | None => false
  | Some im =>
      if gray_ok im then Nat.leb 5 (found_indicators extracted_text) else false
  end.

End SabreScreen.

(** ** The workflow (form_filler.py, latam_form.py, sabre_screen.py) *)

Module Workflow.

(** [SabreScreen.extracted_fields]: field name to [SabreField.value]
    (the constant confidences and positions are not used downstream). *)
Definition fields := list (string * string).

Fixpoint field_lookup (k : string) (fs : fields) : option string :=
  match fs with
  | [] => None
  | (k', v) :: fs' => if String.eqb k k' then Some v else field_lookup k fs'
  end.

Definition has_field (k : string) (fs : fields) : bool :=
  match field_lookup k fs with Some _ => true | None => false end.

(** [SabreScreen.validate_integrity()] *)
Definition validate_integrity (fs : fields) : list ValidationResult :=
  (match field_lookup "pnr" fs with
   | Some v => [RulesEngine.validate_pnr_format v] | None => [] end)
  ++ (match field_lookup "status" fs with
      | Some v => [RulesEngine.validate_flight_status v] | None => [] end)
  ++ (match field_lookup "carrier" fs with
      | Some v => [RulesEngine.validate_carrier_code v] | None => [] end)
  ++ (match field_lookup "classe" fs, field_lookup "auth_code" fs with
      | Some c, Some a =>
          [RulesEngine.validate_estouro_classe [("classe", c); ("auth_code", a)]]
      | _, _ => []
      end).

(** [d[k] = v] on a dict: overwrite in place, or append a new key. *)
Fixpoint dict_set (d : dict) (k v : string) : dict :=
  match d with
  | [] => [(k, v)]
  | (k', v') :: d' => if String.eqb k k' then (k, v) :: d' else (k', v') :: dict_set d' k v
  end.

(** [FormFiller._map_sabre_to_latam] *)
Definition sabre_to_latam : list (string * string) :=
  [("pnr", "pnr"); ("carrier", "carrier"); ("flight_num", "vuelo");
   ("classe", "classe"); ("data_voo", "data_voo"); ("trecho", "segmento");
   ("status", "num_segmento"); ("passenger_name", "pax")].

Definition _map_sabre_to_latam (sabre_fields : fields) : dict :=
  let mapped :=
    fold_left
      (fun m '(sf, lf) =>
         match field_lookup sf sabre_fields with
         | Some v => dict_set m lf v
         | None => m
         end) sabre_to_latam [] in
  let mapped := dict_set mapped "cidade" "SCL" in
  let mapped := dict_set mapped "departamento" "Departamento Técnico" in
  let mapped := dict_set mapped "razao" "PIC - Upgrade" in
  let mapped := dict_set mapped "autorizador" "Supervisor Autorizado" in
  dict_set mapped "cto_des" "UPGRADE".

(** The keys of [LatamForm.field_mappings], in insertion order. *)
Definition latam_fields : list string :=
  ["pnr"; "cidade"; "pais"; "departamento"; "razao"; "autorizador";
   "num_segmento"; "carrier"; "vuelo"; "classe"; "data_voo"; "segmento";
   "pax"; "cto_des"].

Fixpoint dict_lookup (k : string) (d : dict) : option string :=
  match d with
  | [] => None
  | (k', v) :: d' => if String.eqb k k' then Some v else dict_lookup k d'
  end.

(** Observable events of a run: a call of the fill collaborator
    ([LatamForm._fill_field]) and the 200ms pause that follows it. *)
Inductive event := FillCall (field_name value : string) | Pause.

Definition is_fill_call (e : event) : bool :=
  match e with FillCall _ _ => true | Pause => false end.

Definition fill_calls (tr : list event) : nat := length (filter is_fill_call tr).

(** [FillResult] ([processing_time] is wall-clock time and is left out). *)
Record FillResult := mkFR {
  success : bool;
  field_results : list ValidationResult;
  submission_result : option ValidationResult;
  fr_error_message : option string
}.

Section Run.

(** The collaborators.  [Page] is the state of the remote form page;
    [_fill_field] catches every exception itself, so a call always returns
    a [ValidationResult]. *)
Variables Src Img Page : Type.
(** [ImageProcessor.process_image_input]: [inl e] when it raises [e]. *)
Variable process_image_input : Src -> string + (option Img * string).
Variable gray_ok : Img -> bool.
(** [SabreScreen.parse_fields()] on a screen detected as valid. *)
Variable parse_fields : string -> fields.
(** [self.latam_form] is set and [is_form_loaded] holds. *)
Variable form_loaded : bool.
Variable page0 : Page.
Variable _fill_field : Page -> string -> string -> ValidationResult * Page.
Variable submit_form : Page -> ValidationResult.

(** [LatamForm.fill_all(extracted_data)]: the loop over
    [field_mappings]. *)
Fixpoint fill_loop (names : list string) (extracted_data : dict) (pg : Page)
    : list ValidationResult * Page * list event :=
  match names with
  | [] => ([], pg, [])
  | n :: names' =>
      match dict_lookup n extracted_data with
      | Some v =>
          let '(r, pg1) := _fill_field pg n v in
          let '(rs, pg2, tr) := fill_loop names' extracted_data pg1 in
          (r :: rs, pg2, FillCall n v :: Pause :: tr)
      | None => fill_loop names' extracted_data pg
      end
  end.

Definition fill_all (extracted_data : dict) (pg : Page)
    : list ValidationResult * Page * list event :=
  if negb form_loaded then
    ([fail "Formulário não carregado" "Focar no formulário Latam"], pg, [])
  else fill_loop latam_fields extracted_data pg.

(** [FormFiller.process_complete_workflow(image_source)]: the result and
    the events of the run. *)
Definition process_complete_workflow (image_source : Src) : FillResult * list event :=
  match process_image_input image_source with
  | inl e => (mkFR false [] None (Some ("Workflow error: " ++ e)), [])
  | inr (image, extracted_text) =>
      if String.eqb extracted_text "" then
        (mkFR false [] None (Some "No text extracted from image"), [])
      else if negb (SabreScreen.detect_sabre_pattern gray_ok image extracted_text) then
        (mkFR false [] None (Some "Invalid Sabre screen format detected"), [])
      else
        let extracted_fields := parse_fields extracted_text in
        let validation_results := validate_integrity extracted_fields in
        let critical_failures := filter (fun r => negb (is_valid r)) validation_results in
        if negb (Nat.eqb (length critical_failures) 0) then
          (mkFR false validation_results None
             (Some ("Critical validation failures: " ++ Py.str_of_nat (length critical_failures))), [])
        else if negb form_loaded then
          (mkFR false validation_results None (Some "Latam form not available or not loaded"), [])
        else
          let field_mapping := _map_sabre_to_latam extracted_fields in
          let '(fill_results, pg, tr) := fill_all field_mapping page0 in
          let submission_result := submit_form pg in
          (mkFR (forallb is_valid fill_results && is_valid submission_result)
                fill_results (Some submission_result) None, tr)
  end.

End Run.

End Workflow.

(** ** More Python string primitives *)

Module PyMore.

(** [s.lower()] *)
Fixpoint lower (s : string) : string :=
  match s with
  | EmptyString => EmptyString
  | String c s' => String (Py.lower_char c) (lower s')
  end.

(** [s.lstrip()] *)
Fixpoint lstrip (s : string) : string :=
  match s with
  | EmptyString => EmptyString
  | String c s' => if Py.is_space c then lstrip s' else s
  end.

(** [s.rstrip()], via the reversed characters. *)
Fixpoint drop_spaces (cs : list ascii) : list ascii :=
  match cs with
  | [] => []
  | c :: cs' => if Py.is_space c then drop_spaces cs' else cs
  end.

Definition rstrip (s : string) : string :=
  string_of_list_ascii (rev (drop_spaces (rev (list_ascii_of_string s)))).

(** [s.strip()] *)
Definition strip (s : string) : string := rstrip (lstrip s).

End PyMore.

(** ** Python's [re] engine on the patterns of [SabreScreen.parse_fields]

    Every repetition in these patterns applies to a single character class
    and is greedy: the engine takes the longest run allowed and gives back
    one character at a time until the rest of the pattern matches, which
    is what [rep] below does.  Groups are not nested. *)

Module Re.

(** The character classes used: [[A-Z]], [\d], [[A-Z0-9]], [[A-Z0-9_]],
    [\s] and [[^\n]]. *)
Inductive cls := CUpper | CDigit | CUpAlnum | CUpAlnumUnd | CSpace | CNotNl.

Definition cls_ok (k : cls) (c : ascii) : bool :=
  match k with
  | CUpper => Py.is_upper c
  | CDigit => Py.is_digit c
  | CUpAlnum => Py.is_upper c || Py.is_digit c
  | CUpAlnumUnd => Py.is_upper c || Py.is_digit c || Ascii.eqb c "_"%char
  | CSpace => Py.is_space c
  | CNotNl => negb (Ascii.eqb c "010"%char)
  end.

(** A literal character, or a class repeated [lo] to [hi] times
    ([None]: no upper bound). *)
Inductive node :=
  | Chr (c : ascii)
  | Rep (k : cls) (lo : nat) (hi : option nat).

(** A top-level item: a node, or a capturing group of nodes. *)
Inductive item :=
  | Node (n : node)
  | Group (g : list node).

Fixpoint sdrop (n : nat) (s : string) : string :=
  match n, s with
  | O, _ => s
  | S n', String _ s' => sdrop n' s'
  | S _, EmptyString => EmptyString
  end.

Fixpoint stake (n : nat) (s : string) : string :=
  match n, s with
  | O, _ => EmptyString
  | S n', String c s' => String c (stake n' s')
  | S _, EmptyString => EmptyString
  end.

(** The longest run of class characters at the start of [s], at most
    [hi]. *)
Fixpoint run (k : cls) (hi : option nat) (s : string) : nat :=
  match s with
  | EmptyString => 0
  | String c s' =>
      match hi with
      | Some O => 0
      | Some (S h) => if cls_ok k c then S (run k (Some h) s') else 0
      | None => if cls_ok k c then S (run k None s') else 0
      end
  end.

(** A greedy repetition with [i] characters available: try [attempt i],
    then [attempt (i-1)], ..., down to [attempt lo]. *)
Fixpoint rep_try {R : Type} (attempt : nat -> option R) (lo i : nat) : option R :=
  if Nat.ltb i lo then None
  else match attempt i with
       | Some r => Some r
       | None => match i with O => None | S j => rep_try attempt lo j end
       end.

(** Match the nodes [p] at the start of [s], then the continuation [kont]
    on what is left; the first success in backtracking order wins. *)
Fixpoint mnodes {R : Type} (p : list node) (kont : string -> option R) (s : string)
    : option R :=
  match p with
  | [] => kont s
  | Chr c :: p' =>
      match s with
      | String x s' => if Ascii.eqb x c then mnodes p' kont s' else None
      | EmptyString => None
      end
  | Rep k lo hi :: p' =>
      rep_try (fun i => mnodes p' kont (sdrop i s)) lo (run k hi s)
  end.

(** Match the items at the start of [s]; the result lists the text of
    each group. *)
Fixpoint mitems (its : list item) (s : string) : option (list string) :=
  match its with
  | [] => Some []
  | Node n :: its' => mnodes [n] (fun s' => mitems its' s') s
  | Group g :: its' =>
      mnodes g (fun s' =>
        match mitems its' s' with
        | Some caps => Some (stake (String.length s - String.length s') s :: caps)
        | None => None
        end) s
  end.

(** [re.search(pattern, s)]: the groups of the leftmost match. *)
Fixpoint search (its : list item) (s : string) : option (list string) :=
  match mitems its s with
  | Some caps => Some caps
  | None =>
      match s with
      | EmptyString => None
      | String _ s' => search its s'
      end
  end.

(** The strings a list of nodes matches, and the strings and group texts
    a list of items matches. *)
Fixpoint lang (p : list node) (w : string) : Prop :=
  match p with
  | [] => w = EmptyString
  | Chr c :: p' => exists w', w = String c w' /\ lang p' w'
  | Rep k lo hi :: p' =>
      exists u v, w = u ++ v
        /\ forallb (cls_ok k) (list_ascii_of_string u) = true
        /\ lo <= String.length u
        /\ match hi with Some h => String.length u <= h | None => True end
        /\ lang p' v
  end.

Fixpoint ilang (its : list item) (w : string) (caps : list string) : Prop :=
  match its with
  | [] => w = EmptyString /\ caps = []
  | Node n :: its' => exists u v, w = u ++ v /\ lang [n] u /\ ilang its' v caps
  | Group g :: its' =>
      exists u v caps', w = u ++ v /\ lang g u /\ caps = u :: caps' /\ ilang its' v caps'
  end.

Fixpoint groups (its : list item) : list (list node) :=
  match its with
  | [] => []
  | Node _ :: its' => groups its'
  | Group g :: its' => g :: groups its'
  end.

Definition lit (w : string) : list item :=
  map (fun c => Node (Chr c)) (list_ascii_of_string w).

Definition ws0 : item := Node (Rep CSpace 0 None).   (* \s* *)
Definition ws1 : item := Node (Rep CSpace 1 None).   (* \s+ *)

End Re.

(** ** [SabreScreen.parse_fields] and the queries on its result
    (sabre_screen.py) *)

Module SabreFields.

Import Re.

(** [r'Reserva\s*-\s*([A-Z0-9]{6})'] *)
Definition pnr_pat : list item :=
  (lit "Reserva" ++ [ws0; Node (Chr "-"%char); ws0; Group [Rep CUpAlnum 6 (Some 6)]])%list.

(** [r'Nomes\s*\n\s*([^\n]+)'] *)
Definition name_pat : list item :=
  (lit "Nomes" ++ [ws0; Node (Chr "010"%char); ws0; Group [Rep CNotNl 1 None]])%list.

(** [r'([A-Z]{2})\s+(\d{3,4})\s+([A-Z])\s+([A-Z]{3}-[A-Z]{3})\s+(\d{2}[A-Z]{3})\s+([A-Z]{2,3})'] *)
Definition flight_pat : list item :=
  [Group [Rep CUpper 2 (Some 2)]; ws1;
   Group [Rep CDigit 3 (Some 4)]; ws1;
   Group [Rep CUpper 1 (Some 1)]; ws1;
   Group [Rep CUpper 3 (Some 3); Chr "-"%char; Rep CUpper 3 (Some 3)]; ws1;
   Group [Rep CDigit 2 (Some 2); Rep CUpper 3 (Some 3)]; ws1;
   Group [Rep CUpper 2 (Some 3)]].

(** [r'TE\s+(\d{3}-\d{10})'] *)
Definition tkt_pat : list item :=
  (lit "TE" ++ [ws1; Group [Rep CDigit 3 (Some 3); Chr "-"%char; Rep CDigit 10 (Some 10)]])%list.

(** [r'Auth\s*Code\s*:\s*([A-Z0-9_]+)'] *)
Definition auth_pat : list item :=
  (lit "Auth" ++ [ws0] ++ lit "Code" ++ [ws0; Node (Chr ":"%char); ws0; Group [Rep CUpAlnumUnd 1 None]])%list.

(** The five blocks of [parse_fields()], each adding its fields when its
    pattern is found ([re.findall(...)[0]] is the leftmost match, the one
    [re.search] finds). *)
Definition pnr_field (extracted_text : string) : Workflow.fields :=
  match search pnr_pat extracted_text with
  | Some [g] => [("pnr", Py.upper g)]
  | _ => []
  end.

Definition name_field (extracted_text : string) : Workflow.fields :=
  match search name_pat extracted_text with
  | Some [g] => [("passenger_name", PyMore.strip g)]
  | _ => []
  end.

Definition flight_fields (extracted_text : string) : Workflow.fields :=
  match search flight_pat extracted_text with
  | Some [carrier; flight_num; classe; trecho; data_voo; status] =>
      [("carrier", carrier); ("flight_num", flight_num); ("classe", classe);
       ("trecho", trecho); ("data_voo", data_voo); ("status", status)]
  | _ => []
  end.

Definition tkt_field (extracted_text : string) : Workflow.fields :=
  match search tkt_pat extracted_text with
  | Some [g] => [("ticket_number", g)]
  | _ => []
  end.

Definition auth_field (extracted_text : string) : Workflow.fields :=
  match search auth_pat extracted_text with
  | Some [g] => [("auth_code", g)]
  | _ => []
  end.

(** [parse_fields()]: field name to [SabreField.value], in the insertion
    order of the dict (the confidences and positions are constants). *)
Definition parse_fields (is_valid_screen : bool) (extracted_text : string) : Workflow.fields :=
  if negb is_valid_screen then []
  else (pnr_field extracted_text ++ name_field extracted_text
        ++ flight_fields extracted_text ++ tkt_field extracted_text
        ++ auth_field extracted_text)%list.

(** [is_complete()] *)
Definition required_fields : list string :=
  ["pnr"; "carrier"; "flight_num"; "classe"; "data_voo"; "trecho"; "status"].

Definition is_complete (extracted_fields : Workflow.fields) : bool :=
  forallb (fun f => Workflow.has_field f extracted_fields) required_fields.

End SabreFields.

(** ** [LatamForm]: field configs, [_fill_field], [submit_form] and
    [get_form_status] (latam_form.py) *)

Module LatamFormOps.

(** [s.replace(a, b)] for one-character [a] and [b]. *)
Definition replace_char (a b : ascii) (s : string) : string :=
  string_of_list_ascii
    (map (fun c => if Ascii.eqb c a then b else c) (list_ascii_of_string s)).

(** A double quote, for the CSS selectors. *)
Definition dq : string := String (ascii_of_nat 34) EmptyString.

Definition sel (tag id : string) : string := tag ++ "[id=" ++ dq ++ id ++ dq ++ "]".

(** One entry of [field_mappings]: its selector, its [transform] (which
    returns [inl e] when it raises [e]), its [type] and [read_only]. *)
Record FieldConfig := mkFC {
  selector : string;
  transform : option (string -> string + string);
  ftype : option string;
  read_only : bool
}.

(** [Page.query_selector] results on the form. *)
Inductive form_status :=
  | BrowserNotInitialized
  | FormNotLoaded
  | FormLoaded (url : string) (fields : list (string * option string)).

Section Ops.

Variable Page : Type.
(** [datetime.now().year] when [_format_date_brazilian] runs. *)
Variable now_year : nat.
(** Playwright calls: the new page state, and [Some e] when the call
    raises [e]. *)
Variable click : Page -> string -> Page * option string.
Variable wait_for_timeout : Page -> nat -> Page * option string.
Variable keyboard_type : Page -> string -> Page * option string.
Variable keyboard_press : Page -> string -> Page * option string.
Variable page_fill : Page -> string -> string -> Page * option string.
Variable page_type : Page -> string -> string -> nat -> Page * option string.
(** [query_selector(sel)] followed by
    [element.get_attribute('value') or element.inner_text()]:
    [inl e] when it raises, [inr None] when there is no element. *)
Variable query_value : Page -> string -> string + option string.
(** [query_selector(sel)] for the submit button and success indicators. *)
Variable Elt : Type.
Variable query_selector : Page -> string -> string + option Elt.
Variable click_elt : Page -> Elt -> Page * option string.
Variable page_url : Page -> string.

(** [_format_date_brazilian(date_str)] *)
Definition _format_date_brazilian (date_str : string) : string :=
  let '(is_valid, formatted_date) := RulesEngine.validate_date_format now_year date_str in
  if is_valid then formatted_date else date_str.

(** [field_mappings]; the ['vuelo'] transform calls [re.sub], but
    latam_form.py never imports [re], so it raises [NameError]. *)
Definition field_mappings : list (string * FieldConfig) :=
  [("pnr", mkFC (sel "input" "form:txt_pnrCdg") (Some (fun x => inr (Py.upper x))) None false);
   ("cidade", mkFC (sel "input" "form:ciudadPrioridadNombreCiudad_input") (Some (fun x => inr x)) None false);
   ("pais", mkFC (sel "input" "form:ciudadPrioridadNombrePais") None None true);
   ("departamento", mkFC (sel "label" "form:departamentos_label") None (Some "select") false);
   ("razao", mkFC (sel "label" "form:razonEnabled_label") None (Some "select") false);
   ("autorizador", mkFC (sel "label" "form:authorizerEnabled_label") None (Some "select") false);
   ("num_segmento", mkFC (sel "input" "form:txt_segmentNum") (Some (fun x => inr x)) None false);
   ("carrier", mkFC (sel "label" "form:carrierEnabled_label") None (Some "select") false);
   ("vuelo", mkFC (sel "input" "form:txt_vuelotNum")
                  (Some (fun _ => inl "name 're' is not defined")) None false);
   ("classe", mkFC (sel "label" "form:classEnabled_label") None (Some "select") false);
   ("data_voo", mkFC (sel "input" "form:dateFlight_input")
                     (Some (fun x => inr (_format_date_brazilian x))) None false);
   ("segmento", mkFC (sel "input" "form:txt_segment")
                     (Some (fun x => inr (replace_char "-" "/" x))) None false);
   ("pax", mkFC (sel "label" "form:pax_paxID_label") None (Some "select") false);
   ("cto_des", mkFC (sel "input" "form:txt_ctoDes") (Some (fun x => inr x)) None false)].

Fixpoint config_of (k : string) (m : list (string * FieldConfig)) : option FieldConfig :=
  match m with
  | [] => None
  | (k', c) :: m' => if String.eqb k k' then Some c else config_of k m'
  end.

(** [_fill_field(field_name, value, field_config)]: every exception is
    caught and turned into a failed [ValidationResult]. *)
Definition _fill_field (pg : Page) (field_name value : string) (cfg : FieldConfig)
    : ValidationResult * Page :=
  let err (e : string) :=
    fail ("Erro ao preencher campo " ++ field_name ++ ": " ++ e)
         "Verificar se o campo está visível" in
  let step (r : Page * option string) (k : Page -> ValidationResult * Page) :=
    match r with
    | (p, None) => k p
    | (p, Some e) => (err e, p)
    end in
  let selector := selector cfg in
  match (match transform cfg with Some t => t value | None => inr value end) with
  | inl e => (err e, pg)
  | inr v =>
      if (match ftype cfg with Some t => String.eqb t "select" | None => false end)
         || Py.contains "label" selector then
        step (click pg selector) (fun p1 =>
        step (wait_for_timeout p1 100) (fun p2 =>
        step (keyboard_type p2 v) (fun p3 =>
        step (keyboard_press p3 "Enter") (fun p4 => (ok, p4)))))
      else if read_only cfg then
        match query_value pg selector with
        | inl e => (err e, pg)
        | inr None => (ok, pg)
        | inr (Some current_value) =>
            if String.eqb current_value "" || String.eqb (PyMore.strip current_value) "" then
              (fail ("Campo " ++ field_name ++ " não preenchido")
                    "Verificar preenchimento automático", pg)
            else (ok, pg)
        end
      else
        step (page_fill pg selector "") (fun p1 =>
        step (page_type p1 selector v 50) (fun p2 => (ok, p2)))
  end.

(** What [fill_all] does for one key of [field_mappings]: call
    [_fill_field] with that key's config ([fill_all] only passes keys of
    [field_mappings], so the [None] branch is never taken from it). *)
Definition fill_field_named (pg : Page) (field_name value : string) : ValidationResult * Page :=
  match config_of field_name field_mappings with
  | Some cfg => _fill_field pg field_name value cfg
  | None => (fail ("Erro ao preencher campo " ++ field_name ++ ": " ++ field_name)
                  "Verificar se o campo está visível", pg)
  end.

(** [submit_form()] *)
Definition submit_selectors : list string :=
  ["button[type=" ++ dq ++ "submit" ++ dq ++ "]";
   "input[type=" ++ dq ++ "submit" ++ dq ++ "]";
   "button:has-text(" ++ dq ++ "Enviar" ++ dq ++ ")";
   "button:has-text(" ++ dq ++ "Submit" ++ dq ++ ")";
   "#submit"; ".submit"].

Definition success_indicators : list string :=
  ["text=" ++ dq ++ "Sucesso" ++ dq; "text=" ++ dq ++ "Success" ++ dq;
   "text=" ++ dq ++ "Formulário enviado" ++ dq; ".success"; ".confirmation"].

(** The selector loop: the first element found; a query that raises is
    skipped ([continue]). *)
Fixpoint find_button (pg : Page) (sels : list string) : option Elt :=
  match sels with
  | [] => None
  | s :: sels' =>
      match query_selector pg s with
      | inr (Some b) => Some b
      | _ => find_button pg sels'
      end
  end.

Fixpoint any_indicator (pg : Page) (inds : list string) : bool :=
  match inds with
  | [] => false
  | s :: inds' =>
      match query_selector pg s with
      | inr (Some _) => true
      | _ => any_indicator pg inds'
      end
  end.

Definition submit_form (is_form_loaded : bool) (pg : Page) : ValidationResult * Page :=
  if negb is_form_loaded then
    (fail "Formulário não carregado" "Focar no formulário Latam", pg)
  else
    let err (e : string) :=
      fail ("Erro ao submeter formulário: " ++ e) "Verificar conexão e formulário" in
    match find_button pg submit_selectors with
    | Some submit_button =>
        match click_elt pg submit_button with
        | (p1, Some e) => (err e, p1)
        | (p1, None) =>
            match wait_for_timeout p1 1000 with
            | (p2, Some e) => (err e, p2)
            | (p2, None) =>
                if any_indicator p2 success_indicators then (ok, p2)
                else (mkVR true (Some "Formulário submetido (verificar confirmação manualmente)") None, p2)
            end
        end
    | None =>
        (fail "Botão de envio não encontrado" "Verificar se o formulário está completo", pg)
    end.

(** [get_form_status()] ([timestamp] is wall-clock time and is left out):
    a field whose query raises is recorded as [None], a field with no
    element is left out. *)
Definition field_values (pg : Page) : list (string * option string) :=
  flat_map (fun '(field_name, cfg) =>
    match query_value pg (selector cfg) with
    | inl _ => [(field_name, None)]
    | inr None => []
    | inr (Some value) =>
        [(field_name, Some (if String.eqb value "" then "" else PyMore.strip value))]
    end) field_mappings.

Definition get_form_status (page_present is_form_loaded : bool) (pg : Page) : form_status :=
  if negb page_present then BrowserNotInitialized
  else if negb is_form_loaded then FormNotLoaded
  else FormLoaded (page_url pg) (field_values pg).

End Ops.

End LatamFormOps.

(** ** [FormFiller] helpers (form_filler.py) *)

Module FormFillerOps.

(** The loop of [_extract_field_name_from_result]: the token after the
    first token equal to ["campo"] (ignoring case) that has a successor,
    with [":"] and ["."] removed. *)
Fixpoint find_campo (parts : list string) : option string :=
  match parts with
  | p :: ((q :: _) as rest) =>
      if String.eqb (PyMore.lower p) "campo"
      then Some (Py.replace_empty "." (Py.replace_empty ":" q))
      else find_campo rest
  | _ => None
  end.

(** [_extract_field_name_from_result(result)] *)
Definition _extract_field_name_from_result (result : ValidationResult) : option string :=
  match error_message result with
  | Some m =>
      if String.eqb m "" then None
      else if Py.contains "campo" (PyMore.lower m) then find_campo (Py.split_ws m)
      else None
  | None => None
  end.

(** [validate_form_completion()] on the status returned by
    [latam_form.get_form_status()].  [completion_percentage] is the float
    [len(filled_fields) / 6 * 100] and is not modelled. *)
Inductive completion :=
  | NoForm
  | CompletionFormNotLoaded
  | Completion (filled_fields empty_fields : list string) (total_required : nat)
               (form_url : string).

Definition required_fields : list string :=
  ["pnr"; "carrier"; "vuelo"; "classe"; "data_voo"; "segmento"].

Fixpoint status_lookup (k : string) (fs : list (string * option string)) : option (option string) :=
  match fs with
  | [] => None
  | (k', v) :: fs' => if String.eqb k k' then Some v else status_lookup k fs'
  end.

(** [value and value.strip()] *)
Definition is_filled (value : option string) : bool :=
  match value with
  | Some v => negb (String.eqb v "") && negb (String.eqb (PyMore.strip v) "")
  | None => false
  end.

Fixpoint completion_loop (fields : list (string * option string)) (req : list string)
    : list string * list string :=
  match req with
  | [] => ([], [])
  | f :: req' =>
      let '(filled, empty) := completion_loop fields req' in
      match status_lookup f fields with
      | Some value => if is_filled value then (f :: filled, empty) else (filled, f :: empty)
      | None => (filled, empty)
      end
  end.

Definition validate_form_completion (latam_form_present is_form_loaded : bool)
    (form_status : LatamFormOps.form_status) : completion :=
  if negb latam_form_present then NoForm
  else if negb is_form_loaded then CompletionFormNotLoaded
  else
    let fields := match form_status with LatamFormOps.FormLoaded _ fs => fs | _ => [] end in
    let url := match form_status with LatamFormOps.FormLoaded u _ => u | _ => "Unknown" end in
    let '(filled_fields, empty_fields) := completion_loop fields required_fields in
    Completion filled_fields empty_fields (length required_fields) url.

Section Filler.

Variable Page : Type.
(** [self.latam_form is not None] and [self.latam_form.is_form_loaded]. *)
Variable latam_form_present : bool.
Variable is_form_loaded : bool.
(** [latam_form._fill_field(name, value, field_mappings[name])]. *)
Variable _fill_field : Page -> string -> string -> ValidationResult * Page.

(** [fill_single_field(field_name, value)]: the result, the page and the
    events (the call and the [human_delay] pause). *)
Definition fill_single_field (pg : Page) (field_name value : string)
    : ValidationResult * Page * list Workflow.event :=
  if negb latam_form_present || negb is_form_loaded then
    (fail "Formulário não carregado" "Focar no formulário Latam", pg, [])
  else if negb (Py.mem field_name Workflow.latam_fields) then
    (fail ("Campo " ++ field_name ++ " não mapeado") "Verificar mapeamento de campos", pg, [])
  else
    let '(result, pg1) := _fill_field pg field_name value in
    (result, pg1, [Workflow.FillCall field_name value; Workflow.Pause]).

(** [retry_failed_fields(fill_results, extracted_data)] *)
Fixpoint retry_failed_fields (fill_results : list ValidationResult) (extracted_data : dict)
    (pg : Page) : list ValidationResult * Page * list Workflow.event :=
  match fill_results with
  | [] => ([], pg, [])
  | result :: rest =>
      let keep :=
        let '(rs, pg1, tr) := retry_failed_fields rest extracted_data pg in
        (result :: rs, pg1, tr) in
      if is_valid result then keep
      else
        match _extract_field_name_from_result result with
        | Some field_name =>
            if String.eqb field_name "" then keep
            else
              match Workflow.dict_lookup field_name extracted_data with
              | Some value =>
                  let '(retry_result, pg1, tr1) := fill_single_field pg field_name value in
                  let '(rs, pg2, tr2) := retry_failed_fields rest extracted_data pg1 in
                  (retry_result :: rs, pg2, (tr1 ++ tr2)%list)
              | None => keep
              end
        | None => keep
        end
  end.

End Filler.

End FormFillerOps.

(** ** Definitions used to state the properties below *)

Definition flight_keys : list string :=
  ["carrier"; "flight_num"; "classe"; "trecho"; "data_voo"; "status"].

Definition fill_events (d : dict) (names : list string) : list Workflow.event :=
  flat_map (fun n => match Workflow.dict_lookup n d with
                     | Some v => [Workflow.FillCall n v; Workflow.Pause]
                     | None => [] end) names.

Definition field_selector (now_year : nat) (f : string) : string :=
  match LatamFormOps.config_of f (LatamFormOps.field_mappings now_year) with
  | Some c => LatamFormOps.selector c
  | None => ""
  end.

(** The number of positions at which two lists of characters differ,
    up to the shorter length. *)
Fixpoint mismatches (xs ys : list ascii) : nat :=
  match xs, ys with
  | x :: xs', y :: ys' => (if Ascii.eqb x y then 0 else 1) + mismatches xs' ys'
  | _, _ => 0
  end.

(** A Sabre screen as the OCR returns it, and the same screen without its
    authorization line. *)
Definition nl : string := String "010"%char "".

Definition demo_screen_noauth : string :=
  "Reserva - ABC123" ++ nl ++ "Nomes" ++ nl ++ "SILVA/JOAO MR" ++ nl
  ++ "LA 3456 Y GRU-SCL 13MAR HK" ++ nl ++ "TE 957-2400000001".

Definition demo_screen : string :=
  demo_screen_noauth ++ nl ++ "Auth Code: PIC_S23".

(** * Properties *)

(** ** Helper lemmas *)

Lemma class_prefix_exact (n : nat) (s : string) :
  String.length s = n ->
  RulesEngine.class_prefix n s =
  if forallb RulesEngine.pnr_class (list_ascii_of_string s) then Some "" else None.
Proof.
  revert s; induction n as [|n IH]; intros s Hlen.
  - destruct s; [reflexivity | discriminate].
  - destruct s as [|c s']; [discriminate|].
    simpl in Hlen; injection Hlen as Hlen.
    simpl. destruct (RulesEngine.pnr_class c); simpl; [apply IH; exact Hlen | reflexivity].
Qed.

Lemma pnr_regex_match_len6 (s : string) :
  String.length s = 6 ->
  RulesEngine.pnr_regex_match s = forallb RulesEngine.pnr_class (list_ascii_of_string s).
Proof.
  intros H. unfold RulesEngine.pnr_regex_match. rewrite (class_prefix_exact 6 s H).
  destruct (forallb _ _); reflexivity.
Qed.

Lemma mem_In (x : string) (xs : list string) : Py.mem x xs = true <-> In x xs.
Proof.
  unfold Py.mem. rewrite existsb_exists. split.
  - intros [y [Hy Heq]]. apply String.eqb_eq in Heq. subst; exact Hy.
  - intros H. exists x. split; [exact H | apply String.eqb_refl].
Qed.

Lemma mem_not_In (x : string) (xs : list string) : Py.mem x xs = false <-> ~ In x xs.
Proof.
  rewrite <- mem_In. destruct (Py.mem x xs); split; congruence.
Qed.

Lemma lookup_not_In (k : string) (m : list (string * string)) :
  ~ In k (map fst m) -> RulesEngine.lookup k m = None.
Proof.
  induction m as [|[k' v] m IH]; simpl; intros H; [reflexivity|].
  destruct (String.eqb k k') eqn:E.
  - apply String.eqb_eq in E. subst. exfalso; apply H; left; reflexivity.
  - apply IH. intros H'; apply H; right; exact H'.
Qed.

Lemma lower_not_pnr_class (c : ascii) :
  Py.is_lower c = true -> Py.is_upper c || Py.is_digit c = false.
Proof.
  unfold Py.is_lower, Py.is_upper, Py.is_digit.
  intros H. apply andb_true_iff in H as [H1 H2].
  apply Nat.leb_le in H1, H2.
  apply orb_false_iff; split; apply andb_false_iff;
    right; apply Nat.leb_gt; lia.
Qed.

(** ** C4 *)

(** C4: [validate_pnr_format] passes exactly on the strings of length 6
    whose characters are all upper-case letters A-Z or digits 0-9; every
    other length, and every lower-case letter or other symbol, fails. *)
Theorem pnr_format_iff (pnr : string) :
  is_valid (RulesEngine.validate_pnr_format pnr) = true <->
  String.length pnr = 6 /\
  forallb (fun c => Py.is_upper c || Py.is_digit c) (list_ascii_of_string pnr) = true.
Proof.
  unfold RulesEngine.validate_pnr_format.
  destruct (Nat.eqb (String.length pnr) 6) eqn:Hl.
  - apply Nat.eqb_eq in Hl.
    assert (Hne : String.eqb pnr "" = false) by (destruct pnr; [discriminate | reflexivity]).
    rewrite Hne. simpl. rewrite (pnr_regex_match_len6 pnr Hl).
    unfold RulesEngine.pnr_class.
    destruct (forallb _ _); simpl; split; intros H; try tauto; try discriminate.
  - rewrite orb_true_r. simpl. split; [discriminate|].
    intros [H _]. apply Nat.eqb_neq in Hl. contradiction.
Qed.

(** ** C5 *)

(** C5: [validate_estouro_classe] passes exactly when the (upper-cased)
    class is one of Q, S, Y and the (upper-cased) authorization code is one
    of PIC_S23, PIC_S24, PIC_S25.  A class outside its allow-list gives the
    class-ineligible message and remediation; an eligible class with an
    authorization code outside its allow-list gives the distinct
    authorization-ineligible message and remediation. *)
Theorem estouro_classe_spec (d : dict) :
  let class_original := Py.upper (dict_get d "classe" "") in
  let auth_code := Py.upper (dict_get d "auth_code" "") in
  let r := RulesEngine.validate_estouro_classe d in
  (is_valid r = true <->
     In class_original ["Q"; "S"; "Y"] /\ In auth_code ["PIC_S23"; "PIC_S24"; "PIC_S25"])
  /\ (~ In class_original ["Q"; "S"; "Y"] ->
      r = fail ("Classe " ++ class_original ++ " não é elegível para estouro de classe")
               "Verificar classe original da reserva")
  /\ (In class_original ["Q"; "S"; "Y"] ->
      ~ In auth_code ["PIC_S23"; "PIC_S24"; "PIC_S25"] ->
      r = fail ("Código de autorização " ++ auth_code ++ " não permite estouro de classe")
               "Verificar autorização PIC no Sabre")
  /\ "Verificar classe original da reserva" <> "Verificar autorização PIC no Sabre".
Proof.
  intros cls auth r.
  pose proof mem_In as Hmem. pose proof mem_not_In as Hmem'.
  subst r. unfold RulesEngine.validate_estouro_classe, RulesEngine._validate_pic_authorization.
  fold cls auth.
  unfold RulesEngine.valid_codes.
  assert (Hd : "Verificar classe original da reserva" <> "Verificar autorização PIC no Sabre")
    by discriminate.
  destruct (Py.mem cls ["Q"; "S"; "Y"]) eqn:Hc.
  - apply Hmem in Hc.
    destruct (Py.mem auth ["PIC_S23"; "PIC_S24"; "PIC_S25"]) eqn:Ha.
    + apply Hmem in Ha. simpl.
      repeat split; try tauto.
    + apply Hmem' in Ha. simpl.
      repeat split; try tauto; try discriminate.
      intros [_ H]; contradiction.
  - apply Hmem' in Hc. simpl.
    repeat split; try tauto; try discriminate.
    all: intros H; first [exact (False_ind _ (Hc H)) | exact (False_ind _ (Hc (proj1 H)))].
Qed.

(** ** C6 *)

(** C6: [validate_date_format] maps "13MAR" to (true, "13/03/<year>"),
    where <year> is the current year; every input whose length is not 5,
    whose first two characters are not digits, or whose (upper-cased)
    3-letter month abbreviation is not one of the 12 keys of [month_map],
    gives a failure pair (false, message): the function is total. *)
Theorem date_format_spec :
  (forall now_year,
     RulesEngine.validate_date_format now_year "13MAR"
     = (true, "13/03/" ++ Py.str_of_nat now_year))
  /\ (forall now_year date_str,
        String.length date_str <> 5
        \/ Py.isdigit (Py.take 2 date_str) = false
        \/ ~ In (Py.upper (Py.drop 2 date_str)) (map fst RulesEngine.month_map) ->
        exists msg, RulesEngine.validate_date_format now_year date_str = (false, msg)).
Proof.
  split; [intros; reflexivity|].
  intros now_year date_str H. unfold RulesEngine.validate_date_format.
  destruct (Nat.eqb (String.length date_str) 5) eqn:Hl;
    [|simpl; eexists; reflexivity].
  destruct (Py.isdigit (Py.take 2 date_str)) eqn:Hd;
    [|simpl; eexists; reflexivity].
  apply Nat.eqb_eq in Hl.
  destruct H as [H | [H | H]]; [contradiction | discriminate |].
  cbv zeta. rewrite (lookup_not_In _ _ H). simpl. eexists; reflexivity.
Qed.

(** ** C9 *)

(** C9: the carrier, flight-status and class/authorization checks compare
    the upper-cased input with their allow-lists, so every input whose
    upper-cased form is allowed (lower-case variants such as "la", "hk",
    or "y" with "pic_s23") passes; [validate_pnr_format] does not
    normalise, so every PNR containing a lower-case letter fails. *)
Theorem case_normalisation :
  (forall carrier, In (Py.upper carrier) RulesEngine.valid_carriers ->
     is_valid (RulesEngine.validate_carrier_code carrier) = true)
  /\ (forall status, In (Py.upper status) RulesEngine.valid_statuses ->
        is_valid (RulesEngine.validate_flight_status status) = true)
  /\ (forall classe auth, In (Py.upper classe) ["Q"; "S"; "Y"] ->
        In (Py.upper auth) RulesEngine.valid_codes ->
        is_valid (RulesEngine.validate_estouro_classe
                    [("classe", classe); ("auth_code", auth)]) = true)
  /\ (forall pnr, (exists c, In c (list_ascii_of_string pnr) /\ Py.is_lower c = true) ->
        is_valid (RulesEngine.validate_pnr_format pnr) = false).
Proof.
  split; [|split; [|split]].
  - intros carrier H. unfold RulesEngine.validate_carrier_code.
    apply mem_In in H. rewrite H. reflexivity.
  - intros status H. unfold RulesEngine.validate_flight_status.
    apply mem_In in H. rewrite H. reflexivity.
  - intros classe auth Hc Ha. unfold RulesEngine.validate_estouro_classe,
      RulesEngine._validate_pic_authorization.
    change (dict_get [("classe", classe); ("auth_code", auth)] "classe" "") with classe.
    change (dict_get [("classe", classe); ("auth_code", auth)] "auth_code" "") with auth.
    apply mem_In in Hc, Ha. rewrite Hc, Ha. reflexivity.
  - intros pnr [c [Hin Hlow]].
    destruct (is_valid (RulesEngine.validate_pnr_format pnr)) eqn:Hv; [|reflexivity].
    apply pnr_format_iff in Hv as [_ Hall].
    rewrite forallb_forall in Hall. specialize (Hall c Hin).
    rewrite (lower_not_pnr_class c Hlow) in Hall. discriminate.
Qed.

(** ** C3 *)

(** C3: whatever the recognised text, [detect_sabre_pattern] returns false
    when no raw image is loaded ([self.raw_image is None]), so it disagrees
    with "at least 5 of the 8 indicators" on every text that matches 5 or
    more of them; with a loaded image whose grayscale conversion succeeds,
    it returns true iff at least 5 indicators match. *)
Theorem detect_sabre_pattern_needs_image (Img : Type) (gray_ok : Img -> bool) (t : string) :
  SabreScreen.detect_sabre_pattern gray_ok None t = false
  /\ (5 <= SabreScreen.found_indicators t ->
      SabreScreen.detect_sabre_pattern gray_ok None t
      <> Nat.leb 5 (SabreScreen.found_indicators t))
  /\ (forall im, gray_ok im = true ->
      SabreScreen.detect_sabre_pattern gray_ok (Some im) t
      = Nat.leb 5 (SabreScreen.found_indicators t)).
Proof.
  split; [reflexivity|]. split.
  - intros H. unfold SabreScreen.detect_sabre_pattern. intros E. symmetry in E.
    apply Nat.leb_gt in E. lia.
  - intros im H. unfold SabreScreen.detect_sabre_pattern. rewrite H. reflexivity.
Qed.

(** A screen text with all eight indicators. *)
Definition sabre_text_all : string :=
  "Reserva - ABC123 Nomes Voo (CIA) Voo (Numero) Cls De-Para Data Stp Nbr".

(** ** Witnesses of C5, C6 and C9 *)

Lemma estouro_classe_spec_witness :
  is_valid (RulesEngine.validate_estouro_classe [("classe", "Y"); ("auth_code", "PIC_S23")]) = true
  /\ RulesEngine.validate_estouro_classe [("classe", "F"); ("auth_code", "PIC_S23")]
     = fail "Classe F não é elegível para estouro de classe" "Verificar classe original da reserva"
  /\ RulesEngine.validate_estouro_classe [("classe", "Y"); ("auth_code", "BAD")]
     = fail "Código de autorização BAD não permite estouro de classe"
            "Verificar autorização PIC no Sabre".
Proof.
  split; [|split].
  - apply (proj2 (proj1 (estouro_classe_spec [("classe", "Y"); ("auth_code", "PIC_S23")]))).
    simpl. split; [right; right; left | left]; reflexivity.
  - apply (proj1 (proj2 (estouro_classe_spec [("classe", "F"); ("auth_code", "PIC_S23")]))).
    simpl. intros [H | [H | [H | H]]]; discriminate || exact H.
  - apply (proj1 (proj2 (proj2 (estouro_classe_spec [("classe", "Y"); ("auth_code", "BAD")])))).
    + simpl. right; right; left; reflexivity.
    + simpl. intros [H | [H | [H | H]]]; discriminate || exact H.
Defined.

Lemma date_format_spec_witness :
  RulesEngine.validate_date_format 2026 "13MAR" = (true, "13/03/2026")
  /\ (exists msg, RulesEngine.validate_date_format 2026 "13FOO" = (false, msg))
  /\ (exists msg, RulesEngine.validate_date_format 2026 "1MAR" = (false, msg)).
Proof.
  split; [|split].
  - apply (proj1 date_format_spec 2026).
  - apply (proj2 date_format_spec 2026 "13FOO"). right; right.
    vm_compute. intros H; repeat (destruct H as [H | H]; [discriminate H|]); exact H.
  - apply (proj2 date_format_spec 2026 "1MAR"). left. discriminate.
Defined.

Lemma case_normalisation_witness :
  is_valid (RulesEngine.validate_carrier_code "la") = true
  /\ is_valid (RulesEngine.validate_flight_status "hk") = true
  /\ is_valid (RulesEngine.validate_estouro_classe [("classe", "y"); ("auth_code", "pic_s23")]) = true
  /\ is_valid (RulesEngine.validate_pnr_format "abc123") = false.
Proof.
  destruct case_normalisation as [Hc [Hs [He Hp]]].
  split; [|split; [|split]].
  - apply Hc. simpl. left; reflexivity.
  - apply Hs. simpl. left; reflexivity.
  - apply He; simpl; [right; right; left | left]; reflexivity.
  - apply Hp. exists "a"%char. split; [left; reflexivity | reflexivity].
Defined.

(** ** C8 *)

Lemma append_assoc_str (a b c : string) : (a ++ b) ++ c = a ++ (b ++ c).
Proof. induction a as [|x a IH]; simpl; [reflexivity | rewrite IH; reflexivity]. Qed.

(** Counterexample to C8 as stated: two invocations of
    [validate_date_format] with the same argument, made in different
    calendar years, return different results. *)
Lemma date_format_reads_clock :
  RulesEngine.validate_date_format 2026 "13MAR" <> RulesEngine.validate_date_format 2027 "13MAR".
Proof. vm_compute. discriminate. Qed.

(** C8 (as amended): every check other than the date transform, and the
    name classifier, is a function of its arguments alone (the embedding
    gives them no other input).  [validate_date_format] also reads the
    current year: for a given argument, either its result does not depend
    on the clock at all (every failure), or it is [(true, p ++ str(year))]
    for one fixed prefix [p]; so its verdict never depends on the clock and
    two invocations with the same argument in the same year agree. *)
Theorem date_format_clock_dependence (date_str : string) :
  (forall y1 y2, RulesEngine.validate_date_format y1 date_str
                 = RulesEngine.validate_date_format y2 date_str)
  \/ (exists p, forall y, RulesEngine.validate_date_format y date_str
                          = (true, p ++ Py.str_of_nat y)).
Proof.
  unfold RulesEngine.validate_date_format.
  destruct (negb _ || negb _); [left; reflexivity|].
  cbv zeta.
  destruct (RulesEngine.lookup _ _) as [month|]; [right | left; reflexivity].
  exists (Py.take 2 date_str ++ "/" ++ month ++ "/").
  intros y. rewrite !append_assoc_str. reflexivity.
Qed.

(** ** C7 *)

Lemma str_app_nil (u : string) : u ++ EmptyString = u.
Proof. induction u as [|c u IH]; simpl; [reflexivity | rewrite IH; reflexivity]. Qed.

Lemma string_of_list_ascii_app (a b : list ascii) :
  string_of_list_ascii (a ++ b) = string_of_list_ascii a ++ string_of_list_ascii b.
Proof. induction a as [|x a IH]; simpl; [reflexivity | rewrite IH; reflexivity]. Qed.

(** [split()] of a non-empty string without white space is that string. *)
Lemma split_ws_aux_nospace (cur : list ascii) (s : string) :
  (rev cur ++ list_ascii_of_string s)%list <> [] ->
  forallb (fun c => negb (Py.is_space c)) (list_ascii_of_string s) = true ->
  Py.split_ws_aux cur s = [string_of_list_ascii (rev cur ++ list_ascii_of_string s)].
Proof.
  revert cur. induction s as [|c s IH]; intros cur Hne Hs; simpl in *.
  - rewrite app_nil_r in *. destruct cur as [|y cur']; [contradiction | reflexivity].
  - apply andb_true_iff in Hs as [Hc Hs]. apply negb_true_iff in Hc. rewrite Hc.
    rewrite IH; [| simpl; rewrite <- app_assoc; exact Hne | exact Hs].
    simpl. rewrite <- app_assoc. reflexivity.
Qed.

Lemma split_ws_nospace (s : string) :
  s <> "" ->
  forallb (fun c => negb (Py.is_space c)) (list_ascii_of_string s) = true ->
  Py.split_ws s = [s].
Proof.
  intros Hne Hs. unfold Py.split_ws. rewrite split_ws_aux_nospace; simpl.
  - rewrite string_of_list_ascii_of_string. reflexivity.
  - intros H. apply Hne. destruct s; [reflexivity | discriminate].
  - exact Hs.
Qed.

Lemma contains_nonempty (c : ascii) (s : string) :
  Py.contains (String c "") s = true -> s <> "".
Proof. intros H ->. discriminate. Qed.


Lemma contains_char_cons (c x : ascii) (s : string) :
  Py.contains (String c "") s = true -> Py.contains (String c "") (String x s) = true.
Proof.
  unfold Py.contains. simpl.
  destruct (ascii_dec c x); [destruct s; reflexivity|].
  destruct (String.index 0 (String c "") s); [reflexivity | discriminate].
Qed.

Lemma split_on_two_contains (c : ascii) (s : string) (cur : list ascii) :
  2 <= length (Py.split_on_aux c cur s) -> Py.contains (String c "") s = true.
Proof.
  revert cur. induction s as [|x s IH]; intros cur H; simpl in H; [lia|].
  destruct (Ascii.eqb x c) eqn:E.
  - apply Ascii.eqb_eq in E. subst x.
    unfold Py.contains. simpl. destruct (ascii_dec c c); [destruct s; reflexivity | contradiction].
  - apply contains_char_cons. exact (IH _ H).
Qed.

Lemma strs_eqb_refl (xs : list string) : Names.strs_eqb xs xs = true.
Proof. induction xs as [|x xs IH]; simpl; [reflexivity | rewrite String.eqb_refl, IH; reflexivity]. Qed.

(** On the HEAD side, token inversion on either separator is approved:
    when the normalised names split on [' '] or on ['/'] into the same
    number (at least 2) of pieces, the new pieces being the old ones
    reversed, the classifier approves (by an earlier heuristic, or by
    [_is_inverted_names]). *)
Lemma head_inversion_approved (old_name new_name : string) (sep : ascii) :
  In sep [" "%char; "/"%char] ->
  let o := Names._normalize_name old_name in
  let n := Names._normalize_name new_name in
  length (Py.split_on sep o) = length (Py.split_on sep n) ->
  2 <= length (Py.split_on sep o) ->
  Py.split_on sep o = rev (Py.split_on sep n) ->
  is_valid (Head.validate_name_correction old_name new_name) = true.
Proof.
  intros Hsep o n Hlen H2 Hrev.
  unfold Head.validate_name_correction. fold o n.
  destruct (String.eqb o n); [reflexivity|].
  destruct (Head._is_orthographic_correction o n); [reflexivity|].
  assert (Hinv : Head._is_inverted_names o n = true).
  { unfold Head._is_inverted_names. apply existsb_exists. exists sep. split; [exact Hsep|].
    assert (Co : Py.contains (String sep "") o = true) by (exact (split_on_two_contains sep o [] H2)).
    assert (Cn : Py.contains (String sep "") n = true).
    { apply (split_on_two_contains sep n []). unfold Py.split_on in *. lia. }
    unfold Head.inverted_on. rewrite Co, Cn. simpl.
    rewrite Hlen, Nat.eqb_refl. simpl.
    replace (Nat.ltb 1 (length (Py.split_on sep n))) with true
      by (symmetry; apply Nat.ltb_lt; lia).
    rewrite Hrev. apply strs_eqb_refl. }
  rewrite Hinv. reflexivity.
Qed.

(** C7: on the 7a10112 side, token inversion across a slash is never
    recognised.  For every pair of names whose normalised forms contain no
    white space, differ, and split on ['/'] into the same number (at least
    2) of pieces with the new pieces the old ones reversed (the inversion
    the claim approves), [_is_inverted_names] returns false, and
    [validate_name_correction] approves only if the orthographic or the
    agname heuristic does; the HEAD side approves every such pair.  With
    ("LUISA/GALVEZ", "GALVEZ/LUISA") neither of those applies and the pair
    is rejected, while test_system.py asserts that it is valid. *)
Theorem inverted_slash_names_rejected_by_7a10112 (old_name new_name : string) :
  let o := Names._normalize_name old_name in
  let n := Names._normalize_name new_name in
  forallb (fun c => negb (Py.is_space c)) (list_ascii_of_string o) = true ->
  forallb (fun c => negb (Py.is_space c)) (list_ascii_of_string n) = true ->
  length (Py.split_on "/" o) = length (Py.split_on "/" n) ->
  2 <= length (Py.split_on "/" o) ->
  Py.split_on "/" o = rev (Py.split_on "/" n) ->
  o <> n ->
  Side7a10112._is_inverted_names o n = false
  /\ Side7a10112.validate_name_correction old_name new_name
     = (if Side7a10112._is_orthographic_correction o n || Names._is_agname_correction o n
        then ok else Names.rejected)
  /\ is_valid (Head.validate_name_correction old_name new_name) = true.
Proof.
  intros o n Ho Hn Hlen H2 Hrev Hne.
  assert (Eo : Py.split_ws o = [o]).
  { apply split_ws_nospace; [|exact Ho].
    exact (contains_nonempty _ _ (split_on_two_contains "/" o [] H2)). }
  assert (En : Py.split_ws n = [n]).
  { apply split_ws_nospace; [|exact Hn].
    apply (contains_nonempty "/"), (split_on_two_contains "/" n []).
    unfold Py.split_on in *. lia. }
  assert (Eon : String.eqb o n = false) by (apply String.eqb_neq; exact Hne).
  assert (Eno : String.eqb n o = false) by (apply String.eqb_neq; intros H; apply Hne; symmetry; exact H).
  assert (Hinv : Side7a10112._is_inverted_names o n = false).
  { unfold Side7a10112._is_inverted_names. rewrite Eo, En. simpl. rewrite Eon. reflexivity. }
  split; [exact Hinv|]. split.
  - unfold Side7a10112.validate_name_correction. fold o n.
    rewrite Eon, Hinv.
    replace (Side7a10112._is_addition_correction o n) with false
      by (unfold Side7a10112._is_addition_correction, Names.strict_growth;
          rewrite Eo, En; simpl; rewrite Eon; reflexivity).
    replace (Names._is_duplication_correction o n) with false
      by (unfold Names._is_duplication_correction; rewrite Eo, En; simpl; rewrite Eno; reflexivity).
    destruct (Side7a10112._is_orthographic_correction o n), (Names._is_agname_correction o n);
      reflexivity.
  - apply (head_inversion_approved old_name new_name "/"); [simpl; tauto | exact Hlen | exact H2 | exact Hrev].
Qed.

Lemma inverted_slash_names_rejected_by_7a10112_witness :
  Side7a10112.validate_name_correction "LUISA/GALVEZ" "GALVEZ/LUISA" = Names.rejected /\
  let o := Names._normalize_name "LUISA/GALVEZ" in
  let n := Names._normalize_name "GALVEZ/LUISA" in
  Side7a10112._is_inverted_names o n = false
  /\ Side7a10112.validate_name_correction "LUISA/GALVEZ" "GALVEZ/LUISA"
     = (if Side7a10112._is_orthographic_correction o n || Names._is_agname_correction o n
        then ok else Names.rejected)
  /\ is_valid (Head.validate_name_correction "LUISA/GALVEZ" "GALVEZ/LUISA") = true.
Proof.
  split; [vm_compute; reflexivity|].
  apply (inverted_slash_names_rejected_by_7a10112 "LUISA/GALVEZ" "GALVEZ/LUISA").
  - vm_compute. reflexivity.
  - vm_compute. reflexivity.
  - vm_compute. reflexivity.
  - vm_compute. lia.
  - vm_compute. reflexivity.
  - vm_compute. discriminate.
Defined.

(** ** C10 *)

Lemma replace_title_TR (t z : string) :
  In t Names.titles -> Py.replace_empty t ("TR" ++ z) = "TR" ++ Py.replace_empty t z.
Proof.
  intros H. unfold Names.titles in H.
  repeat (destruct H as [<-|H]; [reflexivity|]). destruct H.
Qed.

Lemma fold_titles_TR (l : list string) (z : string) :
  incl l Names.titles ->
  exists z', fold_left (fun acc title => Py.replace_empty title acc) l ("TR" ++ z) = "TR" ++ z'.
Proof.
  revert z. induction l as [|t l IH]; intros z Hl; cbn [fold_left]; [exists z; reflexivity|].
  rewrite replace_title_TR by (apply Hl; left; reflexivity).
  apply IH. intros x Hx. apply Hl. right. exact Hx.
Qed.

Lemma split_ws_aux_first (cur : list ascii) (s : string) :
  cur <> [] ->
  exists p rest, Py.split_ws_aux cur s = (string_of_list_ascii (rev cur) ++ p) :: rest.
Proof.
  revert cur. induction s as [|c s IH]; intros cur Hne; simpl.
  - destruct cur as [|y cur']; [contradiction|].
    exists "", []. rewrite str_app_nil. reflexivity.
  - destruct (Py.is_space c).
    + destruct cur as [|y cur']; [contradiction|].
      exists "", (Py.split_ws_aux [] s). rewrite str_app_nil. reflexivity.
    + destruct (IH (c :: cur)) as [p [rest E]]; [discriminate|].
      exists (String c "" ++ p), rest. rewrite E. simpl.
      rewrite string_of_list_ascii_app, append_assoc_str. reflexivity.
Qed.

(** C10: [_normalize_name] replaces "MS" before "MSTR", so a leading
    title "MSTR" is never stripped: for every rest [w] of the name,
    "MSTR" ++ w normalises as "TR" ++ w does, to a string that starts with
    "TR" (e.g. "MSTR JOAO" gives "TR JOAO"). *)
Theorem normalize_mstr_leaves_tr (w : string) :
  Names._normalize_name ("MSTR" ++ w) = Names._normalize_name ("TR" ++ w)
  /\ (exists rest, Names._normalize_name ("MSTR" ++ w) = "TR" ++ rest)
  /\ Names._normalize_name "MSTR JOAO" = "TR JOAO".
Proof.
  assert (E : Names._normalize_name ("MSTR" ++ w) = Names._normalize_name ("TR" ++ w)).
  { unfold Names._normalize_name. reflexivity. }
  split; [exact E|]. split; [|vm_compute; reflexivity].
  rewrite E. unfold Names._normalize_name.
  change (Py.upper ("TR" ++ w)) with ("TR" ++ Py.upper w).
  destruct (fold_titles_TR Names.titles (Py.upper w) (incl_refl _)) as [z Ez].
  rewrite Ez. unfold Py.split_ws.
  change (Py.split_ws_aux [] ("TR" ++ z)) with (Py.split_ws_aux ["R"; "T"]%char z).
  destruct (split_ws_aux_first ["R"; "T"]%char z) as [p [rest Er]]; [discriminate|].
  rewrite Er. simpl. destruct rest as [|r rest]; [exists p; reflexivity|].
  exists (p ++ " " ++ Py.join " " (r :: rest)). reflexivity.
Qed.

(** The substring removal inside words: "JOHN WILLIAMSON" and
    "JOHN WILLIAON" differ only by the "MS" inside the surname, normalise
    to the same string and are approved by the first (trivial) test of
    both sides of the classifier. *)
Lemma names_embedded_substring_trivial_match :
  exists pre post t,
    In t Names.titles
    /\ "JOHN WILLIAMSON" = pre ++ t ++ post
    /\ "JOHN WILLIAON" = pre ++ post
    /\ Names._normalize_name "JOHN WILLIAMSON" = Names._normalize_name "JOHN WILLIAON"
    /\ Head.validate_name_correction "JOHN WILLIAMSON" "JOHN WILLIAON" = ok
    /\ Side7a10112.validate_name_correction "JOHN WILLIAMSON" "JOHN WILLIAON" = ok.
Proof.
  exists "JOHN WILLIA", "ON", "MS".
  vm_compute. split; [left; reflexivity|]. repeat split.
Qed.

(** ** C1 and C2: the workflow *)

Lemma existsb_filter_nonempty {A : Type} (f : A -> bool) (l : list A) :
  existsb f l = true -> Nat.eqb (length (filter f l)) 0 = false.
Proof.
  induction l as [|x l IH]; simpl; [discriminate|].
  destruct (f x); simpl; [reflexivity | exact IH].
Qed.

Lemma forallb_filter_empty {A : Type} (f : A -> bool) (l : list A) :
  forallb f l = true -> filter (fun r => negb (f r)) l = [].
Proof.
  induction l as [|x l IH]; simpl; [reflexivity|].
  destruct (f x); simpl; [exact IH | discriminate].
Qed.

Definition present (k : string) (d : dict) : bool :=
  match Workflow.dict_lookup k d with Some _ => true | None => false end.

(** The field mapping built by [_map_sabre_to_latam] has one entry per
    field of [LatamForm.field_mappings] it names. *)
Lemma map_sabre_to_latam_keys (fs : Workflow.fields) :
  length (filter (fun k => present k (Workflow._map_sabre_to_latam fs)) Workflow.latam_fields)
  = length (Workflow._map_sabre_to_latam fs).
Proof.
  unfold Workflow._map_sabre_to_latam, Workflow.sabre_to_latam. cbn [fold_left].
  destruct (Workflow.field_lookup "pnr" fs), (Workflow.field_lookup "carrier" fs),
    (Workflow.field_lookup "flight_num" fs), (Workflow.field_lookup "classe" fs),
    (Workflow.field_lookup "data_voo" fs), (Workflow.field_lookup "trecho" fs),
    (Workflow.field_lookup "status" fs), (Workflow.field_lookup "passenger_name" fs).
  all: reflexivity.
Qed.

Lemma dict_lookup_In_keys (k v : string) (d : dict) :
  Workflow.dict_lookup k d = Some v -> In k (map fst d).
Proof.
  induction d as [|[k' v'] d IH]; simpl; [discriminate|].
  destruct (String.eqb k k') eqn:E.
  - intros _. left. symmetry. apply String.eqb_eq. exact E.
  - intros H. right. exact (IH H).
Qed.

(** Every key of the mapping built by [_map_sabre_to_latam] is a field of
    [LatamForm.field_mappings]. *)
Lemma map_sabre_to_latam_keys_in (fs : Workflow.fields) :
  forallb (fun k => Py.mem k Workflow.latam_fields) (map fst (Workflow._map_sabre_to_latam fs)) = true.
Proof.
  unfold Workflow._map_sabre_to_latam, Workflow.sabre_to_latam. cbn [fold_left].
  destruct (Workflow.field_lookup "pnr" fs), (Workflow.field_lookup "carrier" fs),
    (Workflow.field_lookup "flight_num" fs), (Workflow.field_lookup "classe" fs),
    (Workflow.field_lookup "data_voo" fs), (Workflow.field_lookup "trecho" fs),
    (Workflow.field_lookup "status" fs), (Workflow.field_lookup "passenger_name" fs).
  all: reflexivity.
Qed.

Lemma map_sabre_to_latam_in_fields (fs : Workflow.fields) (k v : string) :
  Workflow.dict_lookup k (Workflow._map_sabre_to_latam fs) = Some v ->
  In k Workflow.latam_fields.
Proof.
  intros H. apply dict_lookup_In_keys in H.
  pose proof (map_sabre_to_latam_keys_in fs) as Hk. rewrite forallb_forall in Hk.
  apply mem_In. exact (Hk k H).
Qed.

Section WorkflowFacts.

Variables Src Img Page : Type.
Variable process_image_input : Src -> string + (option Img * string).
Variable gray_ok : Img -> bool.
Variable parse_fields : string -> Workflow.fields.
Variable form_loaded : bool.
Variable page0 : Page.
Variable _fill_field : Page -> string -> string -> ValidationResult * Page.
Variable submit_form : Page -> ValidationResult.

(** The fill loop calls the collaborator once for every listed field
    present in the mapping, failures included, and returns one result per
    call. *)
Lemma fill_loop_counts (names : list string) (d : dict) (pg : Page) :
  let '(rs, _, tr) := Workflow.fill_loop Page _fill_field names d pg in
  length rs = length (filter (fun k => present k d) names)
  /\ Workflow.fill_calls tr = length (filter (fun k => present k d) names).
Proof.
  revert pg. induction names as [|k names IH]; intros pg; [simpl; split; reflexivity|].
  cbn [Workflow.fill_loop filter].
  destruct (Workflow.dict_lookup k d) as [v|] eqn:E.
  - replace (present k d) with true by (unfold present; rewrite E; reflexivity).
    destruct (_fill_field pg k v) as [r pg1].
    specialize (IH pg1).
    destruct (Workflow.fill_loop Page _fill_field names d pg1) as [[rs pg2] tr].
    destruct IH as [IH1 IH2]. unfold Workflow.fill_calls in *. simpl.
    split; f_equal; assumption.
  - replace (present k d) with false by (unfold present; rewrite E; reflexivity).
    apply IH.
Qed.

(** C1: in every run in which validation takes place and at least one
    validation outcome fails, the workflow returns the failure result
    carrying the full list of validation outcomes, and the fill
    collaborator is not called at all (no event is emitted). *)
Theorem validation_failure_blocks_fill
    (image_source : Src) (image : option Img) (extracted_text : string) :
  process_image_input image_source = inr (image, extracted_text) ->
  extracted_text <> "" ->
  SabreScreen.detect_sabre_pattern gray_ok image extracted_text = true ->
  existsb (fun r => negb (is_valid r))
          (Workflow.validate_integrity (parse_fields extracted_text)) = true ->
  let '(res, tr) :=
    Workflow.process_complete_workflow Src Img Page process_image_input gray_ok
      parse_fields form_loaded page0 _fill_field submit_form image_source in
  Workflow.success res = false
  /\ Workflow.field_results res = Workflow.validate_integrity (parse_fields extracted_text)
  /\ Workflow.submission_result res = None
  /\ Workflow.fill_calls tr = 0
  /\ tr = [].
Proof.
  intros Hin Hne Hdet Hfail.
  unfold Workflow.process_complete_workflow. rewrite Hin.
  destruct (String.eqb extracted_text "") eqn:E;
    [apply String.eqb_eq in E; contradiction|].
  rewrite Hdet. simpl negb. cbv zeta.
  rewrite (existsb_filter_nonempty _ _ Hfail). simpl.
  repeat split.
Qed.

(** A field of the mapping on which the collaborator always fails is
    attempted by the fill loop, and a failing result is returned. *)
Lemma fill_loop_failing_field (names : list string) (d : dict) (pg : Page) (k v : string) :
  In k names -> Workflow.dict_lookup k d = Some v ->
  (forall pg', is_valid (fst (_fill_field pg' k v)) = false) ->
  let '(rs, _, tr) := Workflow.fill_loop Page _fill_field names d pg in
  existsb (fun r => negb (is_valid r)) rs = true /\ In (Workflow.FillCall k v) tr.
Proof.
  intros Hin Hk Hfail. revert pg. induction names as [|n names IH]; intros pg; [destruct Hin|].
  cbn [Workflow.fill_loop].
  destruct (String.eqb n k) eqn:Enk.
  - apply String.eqb_eq in Enk. subst n. rewrite Hk.
    specialize (Hfail pg).
    destruct (_fill_field pg k v) as [r pg1]. simpl in Hfail.
    destruct (Workflow.fill_loop Page _fill_field names d pg1) as [[rs pg2] tr].
    simpl. rewrite Hfail. split; [reflexivity | left; reflexivity].
  - destruct Hin as [Hin|Hin]; [apply String.eqb_neq in Enk; contradiction|].
    destruct (Workflow.dict_lookup n d) as [v'|].
    + destruct (_fill_field pg n v') as [r pg1].
      specialize (IH Hin pg1).
      destruct (Workflow.fill_loop Page _fill_field names d pg1) as [[rs pg2] tr].
      destruct IH as [IH1 IH2]. simpl. rewrite IH1, orb_true_r.
      split; [reflexivity | right; right; exact IH2].
    + exact (IH Hin pg).
Qed.

(** C2: in every run that passes validation with the form loaded, the
    fill collaborator is called exactly once for each of the N entries of
    the field mapping (no early abort) and the result lists N per-field
    outcomes; when the collaborator fails on one of these entries (here:
    whatever the page state, and whatever it does on the others), that
    entry is still attempted and the overall [success] is false. *)
Theorem fill_phase_attempts_all
    (image_source : Src) (image : option Img) (extracted_text : string) (k v : string) :
  process_image_input image_source = inr (image, extracted_text) ->
  extracted_text <> "" ->
  SabreScreen.detect_sabre_pattern gray_ok image extracted_text = true ->
  forallb is_valid (Workflow.validate_integrity (parse_fields extracted_text)) = true ->
  form_loaded = true ->
  Workflow.dict_lookup k (Workflow._map_sabre_to_latam (parse_fields extracted_text)) = Some v ->
  (forall pg, is_valid (fst (_fill_field pg k v)) = false) ->
  let N := length (Workflow._map_sabre_to_latam (parse_fields extracted_text)) in
  let '(res, tr) :=
    Workflow.process_complete_workflow Src Img Page process_image_input gray_ok
      parse_fields form_loaded page0 _fill_field submit_form image_source in
  Workflow.fill_calls tr = N
  /\ length (Workflow.field_results res) = N
  /\ In (Workflow.FillCall k v) tr
  /\ existsb (fun r => negb (is_valid r)) (Workflow.field_results res) = true
  /\ Workflow.success res = false.
Proof.
  intros Hin Hne Hdet Hok Hform Hk Hfail N.
  unfold Workflow.process_complete_workflow. rewrite Hin.
  destruct (String.eqb extracted_text "") eqn:E;
    [apply String.eqb_eq in E; contradiction|].
  rewrite Hdet. simpl negb. cbv zeta.
  rewrite (forallb_filter_empty _ _ Hok). rewrite Hform. simpl.
  unfold Workflow.fill_all. simpl negb. cbv iota.
  pose proof (fill_loop_counts Workflow.latam_fields
                (Workflow._map_sabre_to_latam (parse_fields extracted_text)) page0) as Hc.
  pose proof (fill_loop_failing_field Workflow.latam_fields
                (Workflow._map_sabre_to_latam (parse_fields extracted_text)) page0 k v
                (map_sabre_to_latam_in_fields _ k v Hk) Hk Hfail) as Hf.
  rewrite map_sabre_to_latam_keys in Hc. fold N in Hc.
  destruct (Workflow.fill_loop Page _fill_field Workflow.latam_fields
              (Workflow._map_sabre_to_latam (parse_fields extracted_text)) page0)
    as [[rs pg] tr].
  destruct Hc as [Hc1 Hc2]. destruct Hf as [Hf1 Hf2]. simpl.
  split; [exact Hc2|]. split; [exact Hc1|]. split; [exact Hf2|]. split; [exact Hf1|].
  destruct (forallb is_valid rs) eqn:Hall; [|reflexivity].
  exfalso. rewrite forallb_forall in Hall. apply existsb_exists in Hf1 as [r [Hr Hneg]].
  rewrite (Hall r Hr) in Hneg. discriminate.
Qed.
End WorkflowFacts.

(** Witnesses of C1 and C2: a screen text with all eight indicators, a
    page modelled by the number of fills so far, and a fill collaborator
    that fails on the flight-number field only. *)

Definition demo_fields_ineligible : Workflow.fields :=
  [("pnr", "ABC123"); ("carrier", "LA"); ("classe", "F"); ("trecho", "GRU-SCL");
   ("status", "HK"); ("auth_code", "PIC_S23")].

Definition demo_fields_eligible : Workflow.fields :=
  [("pnr", "ABC123"); ("passenger_name", "SILVA/JOAO"); ("carrier", "LA");
   ("flight_num", "3456"); ("classe", "Y"); ("trecho", "GRU-SCL");
   ("data_voo", "13MAR"); ("status", "HK"); ("auth_code", "PIC_S23")].

Definition demo_fill (pg : nat) (field_name value : string) : ValidationResult * nat :=
  (if String.eqb field_name "vuelo"
   then fail ("Erro ao preencher campo " ++ field_name) "Verificar se o campo está visível"
   else ok, S pg).

Lemma validation_failure_blocks_fill_witness :
  let '(res, tr) :=
    Workflow.process_complete_workflow unit unit nat
      (fun _ => inr (Some tt, sabre_text_all)) (fun _ => true)
      (fun _ => demo_fields_ineligible) true 0 demo_fill (fun _ => ok) tt in
  Workflow.success res = false
  /\ Workflow.field_results res = Workflow.validate_integrity demo_fields_ineligible
  /\ Workflow.submission_result res = None
  /\ Workflow.fill_calls tr = 0
  /\ tr = [].
Proof.
  apply (validation_failure_blocks_fill unit unit nat
           (fun _ => inr (Some tt, sabre_text_all)) (fun _ => true)
           (fun _ => demo_fields_ineligible) true 0 demo_fill (fun _ => ok)
           tt (Some tt) sabre_text_all).
  - reflexivity.
  - discriminate.
  - vm_compute. reflexivity.
  - vm_compute. reflexivity.
Defined.

Lemma fill_phase_attempts_all_witness :
  length (Workflow._map_sabre_to_latam demo_fields_eligible) = 13 /\
  (let '(res, _) :=
     Workflow.process_complete_workflow unit unit nat
       (fun _ => inr (Some tt, sabre_text_all)) (fun _ => true)
       (fun _ => demo_fields_eligible) true 0 demo_fill (fun _ => ok) tt in
   length (filter (fun r => negb (is_valid r)) (Workflow.field_results res)) = 1) /\
  let '(res, tr) :=
    Workflow.process_complete_workflow unit unit nat
      (fun _ => inr (Some tt, sabre_text_all)) (fun _ => true)
      (fun _ => demo_fields_eligible) true 0 demo_fill (fun _ => ok) tt in
  Workflow.fill_calls tr = length (Workflow._map_sabre_to_latam demo_fields_eligible)
  /\ length (Workflow.field_results res) = length (Workflow._map_sabre_to_latam demo_fields_eligible)
  /\ In (Workflow.FillCall "vuelo" "3456") tr
  /\ existsb (fun r => negb (is_valid r)) (Workflow.field_results res) = true
  /\ Workflow.success res = false.
Proof.
  split; [vm_compute; reflexivity|]. split; [vm_compute; reflexivity|].
  apply (fill_phase_attempts_all unit unit nat
           (fun _ => inr (Some tt, sabre_text_all)) (fun _ => true)
           (fun _ => demo_fields_eligible) true 0 demo_fill (fun _ => ok)
           tt (Some tt) sabre_text_all "vuelo" "3456").
  - reflexivity.
  - discriminate.
  - vm_compute. reflexivity.
  - vm_compute. reflexivity.
  - reflexivity.
  - vm_compute. reflexivity.
  - intros pg. reflexivity.
Defined.

(** * Further properties of the code *)
(** ** The regex model: every match is in the language of its pattern *)

Lemma run_spec (k : Re.cls) (hi : option nat) (s : string) (i : nat) :
  i <= Re.run k hi s ->
  forallb (Re.cls_ok k) (list_ascii_of_string (Re.stake i s)) = true
  /\ String.length (Re.stake i s) = i
  /\ match hi with Some h => i <= h | None => True end.
Proof.
  revert hi i. induction s as [|c s IH]; intros hi i Hi.
  - simpl in Hi. assert (i = 0) by lia. subst. destruct hi; simpl; auto with arith.
  - destruct i as [|i].
    + destruct hi; simpl; auto with arith.
    + simpl in Hi. destruct hi as [[|h]|].
      * lia.
      * destruct (Re.cls_ok k c) eqn:Hc; [|lia].
        destruct (IH (Some h) i ltac:(lia)) as [H1 [H2 H3]].
        simpl. rewrite Hc, H1, H2. repeat split; lia.
      * destruct (Re.cls_ok k c) eqn:Hc; [|lia].
        destruct (IH None i ltac:(lia)) as [H1 [H2 H3]].
        simpl. rewrite Hc, H1, H2. repeat split.
Qed.

Lemma stake_sdrop (i : nat) (s : string) : Re.stake i s ++ Re.sdrop i s = s.
Proof.
  revert s; induction i as [|i IH]; intros s; [reflexivity|].
  destruct s as [|c s]; [reflexivity|]. simpl. rewrite IH. reflexivity.
Qed.

Lemma rep_try_sound {R : Type} (att : nat -> option R) (lo i : nat) (r : R) :
  Re.rep_try att lo i = Some r -> exists j, lo <= j <= i /\ att j = Some r.
Proof.
  induction i as [|i IH]; simpl; intros H.
  - destruct (Nat.ltb 0 lo) eqn:E; [discriminate|].
    apply Nat.ltb_ge in E.
    destruct (att 0) eqn:A; [|discriminate]. injection H as ->. exists 0. split; [lia|exact A].
  - destruct (Nat.ltb (S i) lo) eqn:E; [discriminate|]. apply Nat.ltb_ge in E.
    destruct (att (S i)) eqn:A.
    + injection H as ->. exists (S i). split; [lia|exact A].
    + destruct (IH H) as [j [Hj Hj']]. exists j. split; [lia|exact Hj'].
Qed.

Lemma mnodes_sound {R : Type} (p : list Re.node) :
  forall (kont : string -> option R) (s : string) (r : R),
  Re.mnodes p kont s = Some r ->
  exists w s', s = w ++ s' /\ Re.lang p w /\ kont s' = Some r.
Proof.
  induction p as [|[c|k lo hi] p IH]; intros kont s r H; simpl in H.
  - exists EmptyString, s. simpl. auto.
  - destruct s as [|x s]; [discriminate|].
    destruct (Ascii.eqb x c) eqn:E; [|discriminate]. apply Ascii.eqb_eq in E. subst x.
    destruct (IH kont s r H) as [w [s' [H1 [H2 H3]]]].
    exists (String c w), s'. subst s. simpl. split; [reflexivity|]. split; [|exact H3].
    exists w. auto.
  - apply rep_try_sound in H as [j [Hj Hm]].
    destruct (IH kont (Re.sdrop j s) r Hm) as [w [s' [H1 [H2 H3]]]].
    destruct (run_spec k hi s j (proj2 Hj)) as [C1 [C2 C3]].
    exists (Re.stake j s ++ w), s'. split.
    + rewrite append_assoc_str, <- H1. symmetry. apply stake_sdrop.
    + split; [|exact H3]. simpl.
      exists (Re.stake j s), w. repeat split; try assumption; try lia.
      destruct hi; [lia|exact I].
Qed.


Lemma str_length_app (u v : string) : String.length (u ++ v) = String.length u + String.length v.
Proof. induction u as [|c u IH]; simpl; [reflexivity | rewrite IH; reflexivity]. Qed.

Lemma stake_app (u v : string) : Re.stake (String.length u) (u ++ v) = u.
Proof. induction u as [|c u IH]; simpl; [destruct v; reflexivity | rewrite IH; reflexivity]. Qed.

Lemma mitems_sound (its : list Re.item) :
  forall (s : string) (caps : list string),
  Re.mitems its s = Some caps -> exists w s', s = w ++ s' /\ Re.ilang its w caps.
Proof.
  induction its as [|[n|g] its IH]; intros s caps H; cbn [Re.mitems] in H.
  - injection H as <-. exists EmptyString, s. simpl. auto.
  - apply mnodes_sound in H as [u [s1 [H1 [H2 H3]]]].
    destruct (IH s1 caps H3) as [v [s' [H4 H5]]].
    exists (u ++ v), s'. split.
    + rewrite append_assoc_str, <- H4. exact H1.
    + simpl. exists u, v. auto.
  - apply mnodes_sound in H as [u [s1 [H1 [H2 H3]]]].
    destruct (Re.mitems its s1) as [caps0|] eqn:E; [|discriminate].
    injection H3 as <-.
    destruct (IH s1 caps0 E) as [v [s' [H4 H5]]].
    exists (u ++ v), s'. split.
    + rewrite append_assoc_str, <- H4. exact H1.
    + simpl. exists u, v, caps0. repeat split; try assumption.
      subst s. rewrite str_length_app.
      replace (String.length u + String.length s1 - String.length s1) with (String.length u) by lia.
      rewrite stake_app. reflexivity.
Qed.

Lemma search_sound (its : list Re.item) (s : string) (caps : list string) :
  Re.search its s = Some caps -> exists w, Re.ilang its w caps.
Proof.
  induction s as [|c s IH]; simpl; intros H.
  - destruct (Re.mitems its "") eqn:E.
    + injection H as <-. apply mitems_sound in E as [w [s' [_ Hw]]]. eauto.
    + discriminate.
  - destruct (Re.mitems its (String c s)) eqn:E.
    + injection H as <-. apply mitems_sound in E as [w [s' [_ Hw]]]. eauto.
    + exact (IH H).
Qed.

Lemma ilang_groups (its : list Re.item) :
  forall (w : string) (caps : list string),
  Re.ilang its w caps -> Forall2 Re.lang (Re.groups its) caps.
Proof.
  induction its as [|[n|g] its IH]; intros w caps H; simpl in *.
  - destruct H as [_ ->]. constructor.
  - destruct H as [u [v [_ [_ H]]]]. exact (IH v caps H).
  - destruct H as [u [v [caps' [_ [Hu [-> H]]]]]]. constructor; [exact Hu | exact (IH v caps' H)].
Qed.

Lemma search_groups (its : list Re.item) (s : string) (caps : list string) :
  Re.search its s = Some caps -> Forall2 Re.lang (Re.groups its) caps.
Proof. intros H. destruct (search_sound its s caps H) as [w Hw]. exact (ilang_groups its w caps Hw). Qed.


(** ** [parse_fields]: where each key comes from *)

Lemma field_lookup_app (k : string) (a b : Workflow.fields) :
  Workflow.field_lookup k (a ++ b)%list =
  match Workflow.field_lookup k a with Some v => Some v | None => Workflow.field_lookup k b end.
Proof.
  induction a as [|[k' v'] a IH]; simpl; [reflexivity|].
  destruct (String.eqb k k'); [reflexivity | exact IH].
Qed.

Lemma field_lookup_notin (k : string) (fs : Workflow.fields) :
  ~ In k (map fst fs) -> Workflow.field_lookup k fs = None.
Proof.
  induction fs as [|[k' v'] fs IH]; simpl; intros H; [reflexivity|].
  destruct (String.eqb k k') eqn:E.
  - apply String.eqb_eq in E. subst. exfalso. apply H. left. reflexivity.
  - apply IH. intros Hin. apply H. right. exact Hin.
Qed.

Lemma lang_rep1 (k : Re.cls) (lo : nat) (hi : option nat) (w : string) :
  Re.lang [Re.Rep k lo hi] w ->
  forallb (Re.cls_ok k) (list_ascii_of_string w) = true /\ lo <= String.length w
  /\ match hi with Some h => String.length w <= h | None => True end.
Proof.
  simpl. intros [u [v [-> [H1 [H2 [H3 ->]]]]]]. rewrite str_app_nil. auto.
Qed.

Lemma groups_flight : Re.groups SabreFields.flight_pat =
  [[Re.Rep Re.CUpper 2 (Some 2)]; [Re.Rep Re.CDigit 3 (Some 4)]; [Re.Rep Re.CUpper 1 (Some 1)];
   [Re.Rep Re.CUpper 3 (Some 3); Re.Chr "-"; Re.Rep Re.CUpper 3 (Some 3)];
   [Re.Rep Re.CDigit 2 (Some 2); Re.Rep Re.CUpper 3 (Some 3)]; [Re.Rep Re.CUpper 2 (Some 3)]].
Proof. reflexivity. Qed.

Lemma groups_one (its : list Re.item) (g : list Re.node) (s : string) (caps : list string) :
  Re.groups its = [g] -> Re.search its s = Some caps ->
  exists w, caps = [w] /\ Re.lang g w.
Proof.
  intros Hg Hs. apply search_groups in Hs. rewrite Hg in Hs.
  inversion Hs as [|? w ? ? Hw Hnil]; subst. inversion Hnil; subst. eauto.
Qed.

Lemma flight_caps (s : string) (caps : list string) :
  Re.search SabreFields.flight_pat s = Some caps ->
  exists c f k tr d st, caps = [c; f; k; tr; d; st]
    /\ Re.lang [Re.Rep Re.CUpper 2 (Some 2)] c
    /\ Re.lang [Re.Rep Re.CDigit 3 (Some 4)] f
    /\ Re.lang [Re.Rep Re.CUpper 1 (Some 1)] k
    /\ Re.lang [Re.Rep Re.CUpper 3 (Some 3); Re.Chr "-"; Re.Rep Re.CUpper 3 (Some 3)] tr
    /\ Re.lang [Re.Rep Re.CDigit 2 (Some 2); Re.Rep Re.CUpper 3 (Some 3)] d
    /\ Re.lang [Re.Rep Re.CUpper 2 (Some 3)] st.
Proof.
  intros Hs. apply search_groups in Hs. rewrite groups_flight in Hs.
  repeat match goal with
         | H : Forall2 _ (_ :: _) _ |- _ => inversion H; subst; clear H
         | H : Forall2 _ [] _ |- _ => inversion H; subst; clear H
         end.
  do 6 eexists. split; [reflexivity|]. repeat split; assumption.
Qed.

Ltac keys_tac :=
  match goal with
  | |- context [Re.search ?p ?t] =>
      destruct (Re.search p t) as [l|];
      [repeat (destruct l as [|? l]; try (simpl; tauto)) | simpl; tauto]
  end.

Lemma pnr_field_keys (t : string) : incl (map fst (SabreFields.pnr_field t)) ["pnr"].
Proof. unfold SabreFields.pnr_field, incl. keys_tac. Qed.


Lemma name_field_keys (t : string) : incl (map fst (SabreFields.name_field t)) ["passenger_name"].
Proof. unfold SabreFields.name_field, incl. keys_tac. Qed.


Lemma flight_fields_keys (t : string) : incl (map fst (SabreFields.flight_fields t)) flight_keys.
Proof. unfold SabreFields.flight_fields, incl, flight_keys. keys_tac. Qed.

Lemma tkt_field_keys (t : string) : incl (map fst (SabreFields.tkt_field t)) ["ticket_number"].
Proof. unfold SabreFields.tkt_field, incl. keys_tac. Qed.

Lemma auth_field_keys (t : string) : incl (map fst (SabreFields.auth_field t)) ["auth_code"].
Proof. unfold SabreFields.auth_field, incl. keys_tac. Qed.

Lemma fl_skip_left (k : string) (a b : Workflow.fields) :
  ~ In k (map fst a) -> Workflow.field_lookup k (a ++ b)%list = Workflow.field_lookup k b.
Proof. intros H. rewrite field_lookup_app, (field_lookup_notin k a H). reflexivity. Qed.

Lemma fl_skip_right (k : string) (a b : Workflow.fields) :
  ~ In k (map fst b) -> Workflow.field_lookup k (a ++ b)%list = Workflow.field_lookup k a.
Proof.
  intros H. rewrite field_lookup_app, (field_lookup_notin k b H).
  destruct (Workflow.field_lookup k a); reflexivity.
Qed.

Ltac notin_tac lem :=
  let Hin := fresh in
  intros Hin; apply lem in Hin; simpl in Hin;
  repeat match goal with
         | H : _ \/ _ |- _ => destruct H as [H|H]
         end;
  first [ discriminate | contradiction
        | match goal with H : In _ flight_keys |- _ =>
            unfold flight_keys in H; simpl in H;
            repeat match goal with HH : _ \/ _ |- _ => destruct HH as [HH|HH] end;
            subst; first [discriminate | contradiction] end ].

Lemma parse_lookup_pnr (t : string) :
  Workflow.field_lookup "pnr" (SabreFields.parse_fields true t)
  = Workflow.field_lookup "pnr" (SabreFields.pnr_field t).
Proof.
  unfold SabreFields.parse_fields. cbn [negb].
  rewrite fl_skip_right; [reflexivity|].
  rewrite !map_app. intros Hin. repeat rewrite in_app_iff in Hin.
  destruct Hin as [H|[H|[H|H]]].
  - revert H. notin_tac name_field_keys.
  - revert H. notin_tac flight_fields_keys.
  - revert H. notin_tac tkt_field_keys.
  - revert H. notin_tac auth_field_keys.
Qed.

Lemma parse_lookup_flight (t k : string) :
  In k flight_keys ->
  Workflow.field_lookup k (SabreFields.parse_fields true t)
  = Workflow.field_lookup k (SabreFields.flight_fields t).
Proof.
  intros Hk. unfold SabreFields.parse_fields. cbn [negb].
  rewrite fl_skip_left by (revert Hk; unfold flight_keys; simpl; intros Hk Hin;
    apply pnr_field_keys in Hin; simpl in Hin; intuition (subst; discriminate)).
  rewrite fl_skip_left by (revert Hk; unfold flight_keys; simpl; intros Hk Hin;
    apply name_field_keys in Hin; simpl in Hin; intuition (subst; discriminate)).
  rewrite fl_skip_right; [reflexivity|].
  rewrite map_app. intros Hin. rewrite in_app_iff in Hin.
  revert Hk; unfold flight_keys; simpl; intros Hk.
  destruct Hin as [Hin|Hin];
    [apply tkt_field_keys in Hin | apply auth_field_keys in Hin];
    simpl in Hin; intuition (subst; discriminate).
Qed.

Lemma parse_lookup_auth (t : string) :
  Workflow.field_lookup "auth_code" (SabreFields.parse_fields true t)
  = Workflow.field_lookup "auth_code" (SabreFields.auth_field t).
Proof.
  unfold SabreFields.parse_fields. cbn [negb].
  rewrite !fl_skip_left; [reflexivity| | | |].
  - intros Hin. apply tkt_field_keys in Hin. simpl in Hin. intuition discriminate.
  - intros Hin. apply flight_fields_keys in Hin. unfold flight_keys in Hin. simpl in Hin. intuition discriminate.
  - intros Hin. apply name_field_keys in Hin. simpl in Hin. intuition discriminate.
  - intros Hin. apply pnr_field_keys in Hin. simpl in Hin. intuition discriminate.
Qed.


Lemma upper_char_id (c : ascii) : Py.is_upper c || Py.is_digit c = true -> Py.upper_char c = c.
Proof.
  destruct c as [[] [] [] [] [] [] [] []]; vm_compute; intros H;
    first [reflexivity | discriminate H].
Qed.

Lemma upper_id (s : string) :
  forallb (fun c => Py.is_upper c || Py.is_digit c) (list_ascii_of_string s) = true ->
  Py.upper s = s.
Proof.
  induction s as [|c s IH]; simpl; intros H; [reflexivity|].
  apply andb_prop in H as [H1 H2]. rewrite (upper_char_id c H1), (IH H2). reflexivity.
Qed.

Lemma forallb_upper_weaken (s : string) :
  forallb Py.is_upper (list_ascii_of_string s) = true ->
  forallb (fun c => Py.is_upper c || Py.is_digit c) (list_ascii_of_string s) = true.
Proof.
  induction s as [|c s IH]; simpl; intros H; [reflexivity|].
  apply andb_prop in H as [H1 H2]. rewrite H1, (IH H2). reflexivity.
Qed.

Lemma substring_full (s : string) : substring 0 (String.length s) s = s.
Proof. induction s as [|c s IH]; simpl; [reflexivity | rewrite IH; reflexivity]. Qed.

(** The PNR that [parse_fields] stores always passes the PNR check. *)
Lemma parsed_pnr_ok (t p : string) :
  Workflow.field_lookup "pnr" (SabreFields.parse_fields true t) = Some p ->
  RulesEngine.validate_pnr_format p = ok.
Proof.
  rewrite parse_lookup_pnr. unfold SabreFields.pnr_field.
  destruct (Re.search SabreFields.pnr_pat t) as [caps|] eqn:E; [|discriminate].
  destruct (groups_one SabreFields.pnr_pat [Re.Rep Re.CUpAlnum 6 (Some 6)] t caps eq_refl E)
    as [w [-> Hw]].
  simpl. intros H. injection H as <-.
  apply lang_rep1 in Hw as [Hc [Hlo Hhi]].
  rewrite (upper_id w Hc).
  unfold RulesEngine.validate_pnr_format.
  assert (Hl : String.length w = 6) by lia.
  destruct w as [|c w']; [simpl in Hl; discriminate|].
  rewrite Hl. simpl String.eqb. simpl Nat.eqb. cbn [orb negb].
  unfold RulesEngine.pnr_regex_match. rewrite (class_prefix_exact 6 _ Hl).
  replace (forallb RulesEngine.pnr_class (list_ascii_of_string (String c w'))) with true
    by (symmetry; exact Hc).
  reflexivity.
Qed.

Lemma flight_lookup_shape (t k v : string) :
  In k flight_keys ->
  Workflow.field_lookup k (SabreFields.parse_fields true t) = Some v ->
  exists c f cl tr d st,
    Re.search SabreFields.flight_pat t = Some [c; f; cl; tr; d; st]
    /\ Re.lang [Re.Rep Re.CUpper 2 (Some 2)] c
    /\ Re.lang [Re.Rep Re.CDigit 3 (Some 4)] f
    /\ Re.lang [Re.Rep Re.CUpper 1 (Some 1)] cl
    /\ Re.lang [Re.Rep Re.CUpper 3 (Some 3); Re.Chr "-"; Re.Rep Re.CUpper 3 (Some 3)] tr
    /\ Re.lang [Re.Rep Re.CDigit 2 (Some 2); Re.Rep Re.CUpper 3 (Some 3)] d
    /\ Re.lang [Re.Rep Re.CUpper 2 (Some 3)] st
    /\ SabreFields.flight_fields t =
       [("carrier", c); ("flight_num", f); ("classe", cl);
        ("trecho", tr); ("data_voo", d); ("status", st)].
Proof.
  intros Hk. rewrite (parse_lookup_flight t k Hk). unfold SabreFields.flight_fields.
  destruct (Re.search SabreFields.flight_pat t) as [caps|] eqn:E; [|discriminate].
  destruct (flight_caps t caps E) as [c [f [cl [tr [d [st [-> H]]]]]]].
  intros _. exists c, f, cl, tr, d, st. intuition.
Qed.

Lemma lang_date (d : string) :
  Re.lang [Re.Rep Re.CDigit 2 (Some 2); Re.Rep Re.CUpper 3 (Some 3)] d ->
  exists a b mon, d = String a (String b mon)
    /\ Py.is_digit a = true /\ Py.is_digit b = true
    /\ String.length mon = 3 /\ forallb Py.is_upper (list_ascii_of_string mon) = true.
Proof.
  simpl. intros [u [v [-> [Hu [Hlo [Hhi [u' [v' [-> [Hu' [Hlo' [Hhi' ->]]]]]]]]]]]].
  destruct u as [|a [|b [|x u]]]; simpl in Hlo, Hhi; try lia.
  simpl in Hu. rewrite !andb_true_r in Hu. apply andb_prop in Hu as [Ha Hb].
  exists a, b, u'. rewrite str_app_nil. repeat split; try assumption; lia.
Qed.

Lemma lang_trecho (tr : string) :
  Re.lang [Re.Rep Re.CUpper 3 (Some 3); Re.Chr "-"; Re.Rep Re.CUpper 3 (Some 3)] tr ->
  exists o d, tr = o ++ String "-" d
    /\ String.length o = 3 /\ forallb Py.is_upper (list_ascii_of_string o) = true
    /\ String.length d = 3 /\ forallb Py.is_upper (list_ascii_of_string d) = true.
Proof.
  simpl. intros [u [v [-> [Hu [Hlo [Hhi [w [-> [u' [v' [-> [Hu' [Hlo' [Hhi' ->]]]]]]]]]]]]]].
  exists u, u'. rewrite str_app_nil. repeat split; try assumption; lia.
Qed.


(** X1: a PNR stored by [parse_fields] always passes [validate_pnr_format]. *)
Theorem parse_fields_pnr_passes_check (t p : string) :
  Workflow.field_lookup "pnr" (SabreFields.parse_fields true t) = Some p ->
  is_valid (RulesEngine.validate_pnr_format p) = true.
Proof. intros H. rewrite (parsed_pnr_ok t p H). reflexivity. Qed.

(** X2: the flight fields are stored all together or not at all, with
    the shapes of their groups. *)
Theorem parse_fields_flight_shape (t : string) :
  let fs := SabreFields.parse_fields true t in
  (forall k, In k flight_keys -> Workflow.field_lookup k fs = None)
  \/ exists carrier flight_num classe trecho data_voo status,
       Workflow.field_lookup "carrier" fs = Some carrier
       /\ Workflow.field_lookup "flight_num" fs = Some flight_num
       /\ Workflow.field_lookup "classe" fs = Some classe
       /\ Workflow.field_lookup "trecho" fs = Some trecho
       /\ Workflow.field_lookup "data_voo" fs = Some data_voo
       /\ Workflow.field_lookup "status" fs = Some status
       /\ String.length carrier = 2
       /\ forallb Py.is_upper (list_ascii_of_string carrier) = true
       /\ 3 <= String.length flight_num <= 4
       /\ forallb Py.is_digit (list_ascii_of_string flight_num) = true
       /\ String.length classe = 1
       /\ forallb Py.is_upper (list_ascii_of_string classe) = true
       /\ (exists o d, trecho = o ++ String "-" d
             /\ String.length o = 3 /\ forallb Py.is_upper (list_ascii_of_string o) = true
             /\ String.length d = 3 /\ forallb Py.is_upper (list_ascii_of_string d) = true)
       /\ (exists a b mon, data_voo = String a (String b mon)
             /\ Py.is_digit a = true /\ Py.is_digit b = true
             /\ String.length mon = 3 /\ forallb Py.is_upper (list_ascii_of_string mon) = true)
       /\ 2 <= String.length status <= 3
       /\ forallb Py.is_upper (list_ascii_of_string status) = true.
Proof.
  intros fs.
  assert (Hk : forall k, In k flight_keys ->
            Workflow.field_lookup k fs = Workflow.field_lookup k (SabreFields.flight_fields t))
    by (intros k Hk; apply parse_lookup_flight; exact Hk).
  unfold SabreFields.flight_fields in Hk.
  destruct (Re.search SabreFields.flight_pat t) as [caps|] eqn:E.
  - right. destruct (flight_caps t caps E) as [c [f [cl [tr [d [st [-> H]]]]]]].
    destruct H as [Hc [Hf [Hcl [Htr [Hd Hst]]]]].
    exists c, f, cl, tr, d, st.
    apply lang_rep1 in Hc, Hf, Hcl, Hst.
    rewrite !Hk by (unfold flight_keys; simpl; tauto). simpl.
    repeat split; try reflexivity; try tauto; try lia.
    + exact (lang_trecho tr Htr).
    + exact (lang_date d Hd).
  - left. intros k Hin. rewrite (Hk k Hin). reflexivity.
Qed.

(** X3: a flight date stored by [parse_fields] never fails the length and
    day check of [validate_date_format]: the outcome depends only on its
    three month letters. *)
Theorem parse_fields_date_month_only (t d : string) (now_year : nat) :
  Workflow.field_lookup "data_voo" (SabreFields.parse_fields true t) = Some d ->
  RulesEngine.validate_date_format now_year d =
  match RulesEngine.lookup (Py.drop 2 d) RulesEngine.month_map with
  | Some month => (true, Py.take 2 d ++ "/" ++ month ++ "/" ++ Py.str_of_nat now_year)
  | None => (false, "Mês inválido: " ++ Py.drop 2 d)
  end.
Proof.
  intros H.
  destruct (flight_lookup_shape t "data_voo" d ltac:(unfold flight_keys; simpl; tauto) H)
    as [c [f [cl [tr [d' [st [_ [_ [_ [_ [_ [Hd [_ Hff]]]]]]]]]]]]].
  assert (d' = d) as <-.
  { rewrite (parse_lookup_flight t "data_voo" ltac:(unfold flight_keys; simpl; tauto)) in H.
    rewrite Hff in H. simpl in H. injection H as ->. reflexivity. }
  destruct (lang_date d' Hd) as [a [b [mon [-> [Ha [Hb [Hl Hu]]]]]]].
  assert (Hdrop : Py.drop 2 (String a (String b mon)) = mon).
  { unfold Py.drop. simpl. rewrite Nat.sub_0_r. apply substring_full. }
  unfold RulesEngine.validate_date_format. rewrite Hdrop.
  rewrite (upper_id mon (forallb_upper_weaken mon Hu)).
  assert (Htake : Py.take 2 (String a (String b mon)) = String a (String b ""))
    by (destruct mon; reflexivity).
  rewrite Htake.
  replace (Py.isdigit (String a (String b ""))) with true
    by (unfold Py.isdigit; simpl; rewrite Ha, Hb; reflexivity).
  replace (String.length (String a (String b mon))) with 5 by (simpl; rewrite Hl; reflexivity).
  reflexivity.
Qed.

(** X4: [is_complete()] on the parsed fields holds exactly when the
    screen was detected as valid ([parse_fields] returns [{}] otherwise)
    and both the PNR pattern and a flight line are found in the text. *)
Theorem parse_fields_is_complete (is_valid_screen : bool) (t : string) :
  SabreFields.is_complete (SabreFields.parse_fields is_valid_screen t)
  = is_valid_screen
    && (match Re.search SabreFields.pnr_pat t with Some _ => true | None => false end)
    && (match Re.search SabreFields.flight_pat t with Some _ => true | None => false end).
Proof.
  destruct is_valid_screen; [simpl andb|reflexivity].
  assert (Hp : Workflow.has_field "pnr" (SabreFields.parse_fields true t)
               = match Re.search SabreFields.pnr_pat t with Some _ => true | None => false end).
  { unfold Workflow.has_field. rewrite parse_lookup_pnr. unfold SabreFields.pnr_field.
    destruct (Re.search SabreFields.pnr_pat t) as [caps|] eqn:E; [|reflexivity].
    destruct (groups_one SabreFields.pnr_pat [Re.Rep Re.CUpAlnum 6 (Some 6)] t caps eq_refl E)
      as [w [-> _]].
    reflexivity. }
  assert (Hf : forall k, In k flight_keys ->
            Workflow.has_field k (SabreFields.parse_fields true t)
            = match Re.search SabreFields.flight_pat t with Some _ => true | None => false end).
  { intros k Hk. unfold Workflow.has_field. rewrite (parse_lookup_flight t k Hk).
    unfold SabreFields.flight_fields.
    destruct (Re.search SabreFields.flight_pat t) as [caps|] eqn:E; [|reflexivity].
    destruct (flight_caps t caps E) as [c [f [cl [tr [d [st [-> _]]]]]]].
    unfold flight_keys in Hk. simpl in Hk.
    intuition (subst; reflexivity). }
  unfold SabreFields.is_complete, SabreFields.required_fields. simpl forallb.
  rewrite Hp, !Hf by (unfold flight_keys; simpl; tauto).
  destruct (Re.search SabreFields.pnr_pat t), (Re.search SabreFields.flight_pat t); reflexivity.
Qed.

(** X5: with no [Auth Code:] match in the text, [validate_integrity] on
    the parsed fields never checks the class: it passes exactly when the
    parsed status and carrier (when present) pass, and the PNR check
    cannot fail. *)
Theorem no_auth_code_class_unchecked (t : string) :
  Re.search SabreFields.auth_pat t = None ->
  let fs := SabreFields.parse_fields true t in
  forallb is_valid (Workflow.validate_integrity fs)
  = (match Workflow.field_lookup "status" fs with
     | Some s => is_valid (RulesEngine.validate_flight_status s) | None => true end)
    && (match Workflow.field_lookup "carrier" fs with
        | Some c => is_valid (RulesEngine.validate_carrier_code c) | None => true end).
Proof.
  intros Hauth fs.
  assert (Ha : Workflow.field_lookup "auth_code" fs = None).
  { unfold fs. rewrite parse_lookup_auth. unfold SabreFields.auth_field. rewrite Hauth. reflexivity. }
  unfold Workflow.validate_integrity. rewrite Ha.
  destruct (Workflow.field_lookup "pnr" fs) as [p|] eqn:Hp.
  - rewrite (parsed_pnr_ok t p Hp).
    destruct (Workflow.field_lookup "status" fs), (Workflow.field_lookup "carrier" fs),
      (Workflow.field_lookup "classe" fs); simpl; rewrite ?andb_true_r; reflexivity.
  - destruct (Workflow.field_lookup "status" fs), (Workflow.field_lookup "carrier" fs),
      (Workflow.field_lookup "classe" fs); simpl; rewrite ?andb_true_r; reflexivity.
Qed.


(** ** The workflow and the fill loop *)


Lemma filter_negb_nil {A : Type} (f : A -> bool) (l : list A) :
  filter (fun r => negb (f r)) l = [] -> forallb f l = true.
Proof.
  induction l as [|x l IH]; simpl; [reflexivity|].
  destruct (f x); simpl; [exact IH | discriminate].
Qed.

Lemma dict_lookup_set_eq (d : dict) (k v : string) :
  Workflow.dict_lookup k (Workflow.dict_set d k v) = Some v.
Proof.
  induction d as [|[k' v'] d IH]; simpl.
  - rewrite String.eqb_refl. reflexivity.
  - destruct (String.eqb k k') eqn:E; simpl.
    + rewrite String.eqb_refl. reflexivity.
    + rewrite E. exact IH.
Qed.

Lemma dict_lookup_set_neq (d : dict) (k k' v : string) :
  k <> k' -> Workflow.dict_lookup k (Workflow.dict_set d k' v) = Workflow.dict_lookup k d.
Proof.
  intros Hne. induction d as [|[k'' v'] d IH]; simpl.
  - destruct (String.eqb k k') eqn:E; [apply String.eqb_eq in E; contradiction | reflexivity].
  - destruct (String.eqb k' k'') eqn:E; simpl.
    + apply String.eqb_eq in E. subst k''.
      destruct (String.eqb k k') eqn:E2; [apply String.eqb_eq in E2; contradiction | reflexivity].
    + destruct (String.eqb k k''); [reflexivity | exact IH].
Qed.

Lemma map_fold_other (fs : Workflow.fields) (k : string) :
  ~ In k (map snd Workflow.sabre_to_latam) ->
  forall (l : list (string * string)) (m : dict), incl l Workflow.sabre_to_latam ->
  Workflow.dict_lookup k
    (fold_left (fun m '(sf, lf) =>
                  match Workflow.field_lookup sf fs with
                  | Some v => Workflow.dict_set m lf v
                  | None => m
                  end) l m)
  = Workflow.dict_lookup k m.
Proof.
  intros Hk l. induction l as [|[sf lf] l IH]; intros m Hincl; simpl; [reflexivity|].
  rewrite IH by (intros x Hx; apply Hincl; right; exact Hx).
  destruct (Workflow.field_lookup sf fs); [|reflexivity].
  apply dict_lookup_set_neq. intros Heq. apply Hk. rewrite Heq.
  apply (in_map snd _ (sf, lf)). apply Hincl. left. reflexivity.
Qed.

(** The five default entries of [_map_sabre_to_latam], and no ['pais']. *)
Lemma map_sabre_to_latam_defaults (fs : Workflow.fields) :
  let m := Workflow._map_sabre_to_latam fs in
  Workflow.dict_lookup "pais" m = None
  /\ Workflow.dict_lookup "cidade" m = Some "SCL"
  /\ Workflow.dict_lookup "departamento" m = Some "Departamento Técnico"
  /\ Workflow.dict_lookup "razao" m = Some "PIC - Upgrade"
  /\ Workflow.dict_lookup "autorizador" m = Some "Supervisor Autorizado"
  /\ Workflow.dict_lookup "cto_des" m = Some "UPGRADE".
Proof.
  intros m. unfold m, Workflow._map_sabre_to_latam.
  repeat split.
  - rewrite !dict_lookup_set_neq by discriminate.
    rewrite map_fold_other; [reflexivity | simpl; intuition discriminate | intros x Hx; exact Hx].
  - rewrite !dict_lookup_set_neq by discriminate.
    rewrite dict_lookup_set_eq. reflexivity.
  - rewrite !dict_lookup_set_neq by discriminate.
    rewrite dict_lookup_set_eq. reflexivity.
  - rewrite !dict_lookup_set_neq by discriminate.
    rewrite dict_lookup_set_eq. reflexivity.
  - rewrite dict_lookup_set_neq by discriminate.
    rewrite dict_lookup_set_eq. reflexivity.
  - rewrite dict_lookup_set_eq. reflexivity.
Qed.

Lemma map_sabre_to_latam_nil :
  Workflow._map_sabre_to_latam [] =
  [("cidade", "SCL"); ("departamento", "Departamento Técnico"); ("razao", "PIC - Upgrade");
   ("autorizador", "Supervisor Autorizado"); ("cto_des", "UPGRADE")].
Proof. reflexivity. Qed.

Section WorkflowRuns.

Variables Src Img Page : Type.
Variable process_image_input : Src -> string + (option Img * string).
Variable gray_ok : Img -> bool.
Variable parse_fields : string -> Workflow.fields.
Variable form_loaded : bool.
Variable page0 : Page.
Variable _fill_field : Page -> string -> string -> ValidationResult * Page.
Variable submit_form : Page -> ValidationResult.

Lemma fill_loop_events (names : list string) (d : dict) (pg : Page) :
  let '(rs, _, tr) := Workflow.fill_loop Page _fill_field names d pg in
  tr = fill_events d names
  /\ length rs = length (filter (fun k => present k d) names)
  /\ (forall n v, In (Workflow.FillCall n v) tr ->
        exists pg', In (fst (_fill_field pg' n v)) rs).
Proof.
  revert pg. induction names as [|k names IH]; intros pg.
  { simpl. split; [reflexivity|]. split; [reflexivity|]. intros ? ? []. }
  cbn [Workflow.fill_loop filter]. unfold fill_events. cbn [flat_map].
  destruct (Workflow.dict_lookup k d) as [v|] eqn:E.
  - replace (present k d) with true by (unfold present; rewrite E; reflexivity).
    destruct (_fill_field pg k v) as [r pg1] eqn:Ef.
    specialize (IH pg1).
    destruct (Workflow.fill_loop Page _fill_field names d pg1) as [[rs pg2] tr].
    destruct IH as [IH1 [IH2 IH3]]. subst tr. simpl.
    split; [reflexivity|]. split; [f_equal; exact IH2|].
    intros n w [Hin|[Hin|Hin]].
    + injection Hin as <- <-. exists pg. rewrite Ef. left. reflexivity.
    + discriminate.
    + destruct (IH3 n w Hin) as [pg' Hpg']. exists pg'. right. exact Hpg'.
  - replace (present k d) with false by (unfold present; rewrite E; reflexivity).
    apply IH.
Qed.

Lemma in_fill_events (d : dict) (names : list string) (n v : string) :
  In (Workflow.FillCall n v) (fill_events d names) ->
  In n names /\ Workflow.dict_lookup n d = Some v.
Proof.
  induction names as [|k names IH]; simpl; [intros []|].
  intros H. apply in_app_or in H. destruct H as [H|H].
  - destruct (Workflow.dict_lookup k d) eqn:E; [|destruct H].
    destruct H as [H|[H|[]]]; [|discriminate].
    injection H as <- <-. split; [left; reflexivity | exact E].
  - destruct (IH H) as [H1 H2]. split; [right; exact H1 | exact H2].
Qed.

Lemma workflow_cases (image_source : Src) :
  let '(res, tr) := Workflow.process_complete_workflow Src Img Page process_image_input
                      gray_ok parse_fields form_loaded page0 _fill_field submit_form image_source in
  (Workflow.submission_result res = None /\ tr = [])
  \/ (exists image t,
        process_image_input image_source = inr (image, t)
        /\ t <> ""
        /\ SabreScreen.detect_sabre_pattern gray_ok image t = true
        /\ forallb is_valid (Workflow.validate_integrity (parse_fields t)) = true
        /\ form_loaded = true
        /\ tr = fill_events (Workflow._map_sabre_to_latam (parse_fields t)) Workflow.latam_fields
        /\ exists pg rs,
             Workflow.fill_loop Page _fill_field Workflow.latam_fields
               (Workflow._map_sabre_to_latam (parse_fields t)) page0 = (rs, pg, tr)
             /\ res = Workflow.mkFR (forallb is_valid rs && is_valid (submit_form pg)) rs
                                    (Some (submit_form pg)) None).
Proof.
  unfold Workflow.process_complete_workflow.
  destruct (process_image_input image_source) as [e|[image t]] eqn:Hsrc;
    [left; split; reflexivity|].
  destruct (String.eqb t "") eqn:Ht; [left; split; reflexivity|].
  destruct (SabreScreen.detect_sabre_pattern gray_ok image t) eqn:Hd;
    [|left; split; reflexivity].
  simpl negb. cbv iota.
  destruct (Nat.eqb (length (filter (fun r => negb (is_valid r))
                               (Workflow.validate_integrity (parse_fields t)))) 0) eqn:Hc;
    [|left; split; reflexivity].
  destruct form_loaded eqn:Hf; [|left; split; reflexivity].
  apply Nat.eqb_eq, length_zero_iff_nil, filter_negb_nil in Hc.
  unfold Workflow.fill_all. simpl negb. cbv iota.
  pose proof (fill_loop_events Workflow.latam_fields
                (Workflow._map_sabre_to_latam (parse_fields t)) page0) as Hl.
  destruct (Workflow.fill_loop Page _fill_field Workflow.latam_fields
              (Workflow._map_sabre_to_latam (parse_fields t)) page0) as [[rs pg] tr] eqn:El.
  cbv iota. right. exists image, t.
  destruct Hl as [Htr _].
  repeat split; try assumption; try reflexivity.
  - intros ->. discriminate.
  - exists pg, rs. split; [exact El | reflexivity].
Qed.

(** X6: the workflow calls [_fill_field] or [submit_form] only when the
    image gave a non-empty text, the text was detected as a Sabre screen,
    every integrity check passed and the form is loaded; the fill calls are
    then exactly the keys of [field_mappings] present in the mapped dict, in
    that order, each with its mapped value. *)
Theorem workflow_fills_only_after_checks (image_source : Src) :
  let '(res, tr) := Workflow.process_complete_workflow Src Img Page process_image_input
                      gray_ok parse_fields form_loaded page0 _fill_field submit_form image_source in
  (tr <> [] \/ Workflow.submission_result res <> None) ->
  exists image t,
    process_image_input image_source = inr (image, t)
    /\ t <> ""
    /\ SabreScreen.detect_sabre_pattern gray_ok image t = true
    /\ forallb is_valid (Workflow.validate_integrity (parse_fields t)) = true
    /\ form_loaded = true
    /\ tr = fill_events (Workflow._map_sabre_to_latam (parse_fields t)) Workflow.latam_fields.
Proof.
  pose proof (workflow_cases image_source) as H.
  destruct (Workflow.process_complete_workflow Src Img Page process_image_input gray_ok
              parse_fields form_loaded page0 _fill_field submit_form image_source) as [res tr].
  intros Hne. destruct H as [[Hs Ht]|H].
  - destruct Hne as [Hne|Hne]; contradiction.
  - destruct H as [image [t [H1 [H2 [H3 [H4 [H5 [H6 _]]]]]]]].
    exists image, t. repeat split; assumption.
Qed.

(** X7: whatever the screen, the workflow never fills ['pais'], and the
    five constant fields are always filled with their fixed values
    (cidade SCL, departamento, razao, autorizador, cto_des UPGRADE). *)
Theorem workflow_fixed_fields (image_source : Src) (n v : string) :
  let '(res, tr) := Workflow.process_complete_workflow Src Img Page process_image_input
                      gray_ok parse_fields form_loaded page0 _fill_field submit_form image_source in
  In (Workflow.FillCall n v) tr ->
  n <> "pais"
  /\ (n = "cidade" -> v = "SCL")
  /\ (n = "departamento" -> v = "Departamento Técnico")
  /\ (n = "razao" -> v = "PIC - Upgrade")
  /\ (n = "autorizador" -> v = "Supervisor Autorizado")
  /\ (n = "cto_des" -> v = "UPGRADE").
Proof.
  pose proof (workflow_cases image_source) as H.
  destruct (Workflow.process_complete_workflow Src Img Page process_image_input gray_ok
              parse_fields form_loaded page0 _fill_field submit_form image_source) as [res tr].
  intros Hin. destruct H as [[_ Ht]|H]; [subst tr; destruct Hin|].
  destruct H as [image [t [_ [_ [_ [_ [_ [Htr _]]]]]]]].
  subst tr. apply in_fill_events in Hin. destruct Hin as [_ Hl].
  destruct (map_sabre_to_latam_defaults (parse_fields t)) as [D1 [D2 [D3 [D4 [D5 D6]]]]].
  repeat split; intros ->; congruence.
Qed.

(** X8: a Sabre screen from which no field is parsed still passes the
    integrity checks, and with a loaded form the run fills exactly the five
    constant fields, in the order of [field_mappings], and submits. *)
Theorem workflow_empty_parse_fills_defaults (image_source : Src) (image : option Img) (t : string) :
  process_image_input image_source = inr (image, t) ->
  t <> "" ->
  SabreScreen.detect_sabre_pattern gray_ok image t = true ->
  parse_fields t = [] ->
  form_loaded = true ->
  let '(res, tr) := Workflow.process_complete_workflow Src Img Page process_image_input
                      gray_ok parse_fields form_loaded page0 _fill_field submit_form image_source in
  tr = [Workflow.FillCall "cidade" "SCL"; Workflow.Pause;
        Workflow.FillCall "departamento" "Departamento Técnico"; Workflow.Pause;
        Workflow.FillCall "razao" "PIC - Upgrade"; Workflow.Pause;
        Workflow.FillCall "autorizador" "Supervisor Autorizado"; Workflow.Pause;
        Workflow.FillCall "cto_des" "UPGRADE"; Workflow.Pause]
  /\ length (Workflow.field_results res) = 5
  /\ Workflow.submission_result res <> None.
Proof.
  intros Hsrc Ht Hd Hp Hf.
  unfold Workflow.process_complete_workflow.
  rewrite Hsrc. cbv iota.
  replace (String.eqb t "") with false
    by (symmetry; apply String.eqb_neq; exact Ht).
  rewrite Hd, Hp, Hf. cbv iota. simpl negb. cbv iota.
  unfold Workflow.fill_all. simpl negb. cbv iota.
  rewrite map_sabre_to_latam_nil.
  pose proof (fill_loop_events Workflow.latam_fields
    [("cidade", "SCL"); ("departamento", "Departamento Técnico"); ("razao", "PIC - Upgrade");
     ("autorizador", "Supervisor Autorizado"); ("cto_des", "UPGRADE")] page0) as Hl.
  destruct (Workflow.fill_loop Page _fill_field Workflow.latam_fields _ page0)
    as [[rs pg] tr].
  destruct Hl as [Htr [Hlen _]]. cbv iota. simpl.
  split; [exact Htr|]. split; [exact Hlen | discriminate].
Qed.

End WorkflowRuns.


(** ** [LatamForm] operations *)

Lemma forallb_false_In {A : Type} (f : A -> bool) (l : list A) (x : A) :
  In x l -> f x = false -> forallb f l = false.
Proof.
  intros Hin Hf. destruct (forallb f l) eqn:E; [|reflexivity].
  rewrite forallb_forall in E. rewrite (E x Hin) in Hf. discriminate.
Qed.

Section LatamRuns.

Variable Page : Type.
Variable now_year : nat.
Variable click : Page -> string -> Page * option string.
Variable wait_for_timeout : Page -> nat -> Page * option string.
Variable keyboard_type : Page -> string -> Page * option string.
Variable keyboard_press : Page -> string -> Page * option string.
Variable page_fill : Page -> string -> string -> Page * option string.
Variable page_type : Page -> string -> string -> nat -> Page * option string.
Variable query_value : Page -> string -> string + option string.
Variable Elt : Type.
Variable query_selector : Page -> string -> string + option Elt.
Variable click_elt : Page -> Elt -> Page * option string.
Variable page_url : Page -> string.

Local Abbreviation fill_named :=
  (LatamFormOps.fill_field_named Page now_year click wait_for_timeout keyboard_type
     keyboard_press page_fill page_type query_value).

(** [_fill_field] on ['vuelo'] fails, whatever the value and the page. *)
Lemma fill_named_vuelo (pg : Page) (v : string) :
  fill_named pg "vuelo" v =
  (fail "Erro ao preencher campo vuelo: name 're' is not defined"
        "Verificar se o campo está visível", pg).
Proof. reflexivity. Qed.

(** X9: [submit_form] reports success exactly when the form is loaded, one
    of the submit selectors finds a button, and neither the click nor the
    one-second wait raises; whether a success indicator is found only
    changes the message. *)
Theorem submit_form_valid_iff (is_form_loaded : bool) (pg : Page) :
  is_valid (fst (LatamFormOps.submit_form Page wait_for_timeout Elt query_selector click_elt
                   is_form_loaded pg)) = true
  <-> is_form_loaded = true
      /\ exists b, LatamFormOps.find_button Page Elt query_selector pg
                     LatamFormOps.submit_selectors = Some b
                   /\ snd (click_elt pg b) = None
                   /\ snd (wait_for_timeout (fst (click_elt pg b)) 1000) = None.
Proof.
  unfold LatamFormOps.submit_form.
  destruct is_form_loaded; simpl negb; cbv iota.
  2:{ split; [discriminate | intros [H _]; discriminate]. }
  destruct (LatamFormOps.find_button Page Elt query_selector pg LatamFormOps.submit_selectors)
    as [b|] eqn:Eb.
  - destruct (click_elt pg b) as [p1 [e1|]] eqn:Ec.
    + simpl. split; [discriminate|].
      intros [_ [b' [Hb [Hc _]]]]. injection Hb as <-. rewrite Ec in Hc. discriminate.
    + destruct (wait_for_timeout p1 1000) as [p2 [e2|]] eqn:Ew.
      * simpl. split; [discriminate|].
        intros [_ [b' [Hb [_ Hw]]]]. injection Hb as <-. rewrite Ec in Hw. simpl in Hw.
        rewrite Ew in Hw. discriminate.
      * split; [intros _ | intros _; destruct (LatamFormOps.any_indicator _ _ _ _ _); reflexivity].
        split; [reflexivity|]. exists b. rewrite Ec. simpl. rewrite Ew. auto.
  - simpl. split; [discriminate|]. intros [_ [b [Hb _]]]. discriminate.
Qed.

(** X10: the read-only field ['pais'] is never written: filling it leaves the
    page as it is, and the result only reports whether the field already
    holds a non-blank value (a field that is absent counts as filled, a
    query that raises as a failure). *)
Theorem fill_pais_read_only (pg : Page) (v : string) :
  let '(r, pg') := fill_named pg "pais" v in
  pg' = pg
  /\ is_valid r =
     match query_value pg (LatamFormOps.sel "input" "form:ciudadPrioridadNombrePais") with
     | inl _ => false
     | inr None => true
     | inr (Some current) => negb (String.eqb (PyMore.strip current) "")
     end.
Proof.
  change (fill_named pg "pais" v) with
    (match query_value pg (LatamFormOps.sel "input" "form:ciudadPrioridadNombrePais") with
     | inl e => (fail ("Erro ao preencher campo " ++ "pais" ++ ": " ++ e)
                      "Verificar se o campo está visível", pg)
     | inr None => (ok, pg)
     | inr (Some current_value) =>
         if String.eqb current_value "" || String.eqb (PyMore.strip current_value) "" then
           (fail ("Campo " ++ "pais" ++ " não preenchido") "Verificar preenchimento automático", pg)
         else (ok, pg)
     end).
  destruct (query_value pg (LatamFormOps.sel "input" "form:ciudadPrioridadNombrePais"))
    as [e|[c|]]; [split; reflexivity | | split; reflexivity].
  destruct (String.eqb c "") eqn:E.
  - apply String.eqb_eq in E. subst c. split; reflexivity.
  - simpl orb. destruct (String.eqb (PyMore.strip c) ""); split; reflexivity.
Qed.

Variables Src Img : Type.
Variable process_image_input : Src -> string + (option Img * string).
Variable gray_ok : Img -> bool.
Variable parse_fields : string -> Workflow.fields.
Variable form_loaded : bool.
Variable page0 : Page.
Variable submit_form : Page -> ValidationResult.

(** X11: with [LatamForm._fill_field] as the fill collaborator, a run that
    fills ['vuelo'] (the flight number) always ends with [success = false]:
    the ['vuelo'] transform raises [NameError] because latam_form.py never
    imports [re], and its failure is among the field results. *)
Theorem workflow_vuelo_fill_fails (image_source : Src) (v : string) :
  let '(res, tr) := Workflow.process_complete_workflow Src Img Page process_image_input
                      gray_ok parse_fields form_loaded page0 fill_named submit_form image_source in
  In (Workflow.FillCall "vuelo" v) tr ->
  Workflow.success res = false
  /\ In (fail "Erro ao preencher campo vuelo: name 're' is not defined"
              "Verificar se o campo está visível") (Workflow.field_results res).
Proof.
  pose proof (workflow_cases Src Img Page process_image_input gray_ok parse_fields form_loaded
                page0 fill_named submit_form image_source) as H.
  destruct (Workflow.process_complete_workflow Src Img Page process_image_input gray_ok
              parse_fields form_loaded page0 fill_named submit_form image_source) as [res tr].
  intros Hin. destruct H as [[_ Ht]|H]; [subst tr; destruct Hin|].
  destruct H as [image [t [_ [_ [_ [_ [_ [_ [pg [rs [El ->]]]]]]]]]]].
  pose proof (fill_loop_events Page fill_named Workflow.latam_fields
                (Workflow._map_sabre_to_latam (parse_fields t)) page0) as Hl.
  rewrite El in Hl. destruct Hl as [_ [_ Hcalls]].
  destruct (Hcalls "vuelo" v Hin) as [pg' Hr].
  rewrite fill_named_vuelo in Hr. simpl in Hr. simpl.
  split; [|exact Hr].
  rewrite (forallb_false_In is_valid rs _ Hr eq_refl). reflexivity.
Qed.

End LatamRuns.


(** ** [str.strip] *)

Lemma lstrip_chars (s : string) :
  list_ascii_of_string (PyMore.lstrip s) = PyMore.drop_spaces (list_ascii_of_string s).
Proof.
  induction s as [|c s IH]; simpl; [reflexivity|].
  destruct (Py.is_space c); [exact IH | reflexivity].
Qed.

Lemma drop_spaces_nil (l : list ascii) :
  PyMore.drop_spaces l = [] <-> forallb Py.is_space l = true.
Proof.
  induction l as [|c l IH]; simpl; [tauto|].
  destruct (Py.is_space c); simpl; [exact IH | split; discriminate].
Qed.

Lemma drop_spaces_forallb (l : list ascii) :
  forallb Py.is_space (PyMore.drop_spaces l) = forallb Py.is_space l.
Proof.
  induction l as [|c l IH]; simpl; [reflexivity|].
  destruct (Py.is_space c) eqn:E; simpl; [exact IH | rewrite E; reflexivity].
Qed.

Lemma forallb_rev {A : Type} (f : A -> bool) (l : list A) :
  forallb f (rev l) = forallb f l.
Proof.
  induction l as [|x l IH]; simpl; [reflexivity|].
  rewrite forallb_app, IH. simpl. rewrite andb_true_r, andb_comm. reflexivity.
Qed.

Lemma string_of_list_nil (l : list ascii) : string_of_list_ascii l = "" <-> l = [].
Proof. destruct l; simpl; split; intros H; try reflexivity; discriminate. Qed.

(** [s.strip()] is empty exactly when [s] is all white space. *)
Lemma strip_empty_iff (s : string) :
  PyMore.strip s = "" <-> forallb Py.is_space (list_ascii_of_string s) = true.
Proof.
  unfold PyMore.strip, PyMore.rstrip.
  rewrite string_of_list_nil, lstrip_chars.
  split; intros H.
  - apply (f_equal (@rev ascii)) in H. rewrite rev_involutive in H. simpl in H.
    apply drop_spaces_nil in H. rewrite forallb_rev, drop_spaces_forallb in H. exact H.
  - rewrite <- drop_spaces_forallb, <- (forallb_rev Py.is_space) in H.
    apply drop_spaces_nil in H. rewrite H. reflexivity.
Qed.

Lemma drop_spaces_snoc (l : list ascii) (c : ascii) :
  Py.is_space c = false -> PyMore.drop_spaces (l ++ [c]) = (PyMore.drop_spaces l ++ [c])%list.
Proof.
  intros Hc. induction l as [|x l IH]; simpl; [rewrite Hc; reflexivity|].
  destruct (Py.is_space x); [exact IH | reflexivity].
Qed.

Lemma drop_spaces_head (l l' : list ascii) (c : ascii) :
  PyMore.drop_spaces l = c :: l' -> Py.is_space c = false.
Proof.
  induction l as [|x l IH]; simpl; [discriminate|].
  destruct (Py.is_space x) eqn:E; [exact IH|]. intros H. injection H as <- _. exact E.
Qed.

(** A stripped string is empty or starts with a non-space character. *)
Lemma strip_head (s : string) :
  PyMore.strip s = "" \/ exists c s', PyMore.strip s = String c s' /\ Py.is_space c = false.
Proof.
  unfold PyMore.strip, PyMore.rstrip. rewrite lstrip_chars.
  destruct (PyMore.drop_spaces (list_ascii_of_string s)) as [|c l] eqn:E; [left; reflexivity|].
  right. pose proof (drop_spaces_head _ _ _ E) as Hc.
  simpl. rewrite drop_spaces_snoc by exact Hc. rewrite rev_app_distr. simpl.
  exists c, (string_of_list_ascii (rev (PyMore.drop_spaces (rev l)))). split; [reflexivity | exact Hc].
Qed.

(** What [get_form_status] reports for a value, as [validate_form_completion]
    sees it: filled exactly when the value is not blank. *)
Lemma is_filled_reported (v : string) :
  FormFillerOps.is_filled (Some (if String.eqb v "" then "" else PyMore.strip v))
  = negb (String.eqb (PyMore.strip v) "").
Proof.
  destruct (String.eqb v "") eqn:E.
  - apply String.eqb_eq in E. subst v. reflexivity.
  - unfold FormFillerOps.is_filled.
    destruct (strip_head v) as [H|[c [s' [H Hc]]]]; rewrite H; [reflexivity|].
    simpl negb.
    destruct (String.eqb (PyMore.strip (String c s')) "") eqn:E2; [|reflexivity].
    apply String.eqb_eq, strip_empty_iff in E2. simpl in E2. rewrite Hc in E2. discriminate.
Qed.


Lemma status_lookup_app (f : string) (a b : list (string * option string)) :
  FormFillerOps.status_lookup f (a ++ b) =
  match FormFillerOps.status_lookup f a with
  | Some v => Some v
  | None => FormFillerOps.status_lookup f b
  end.
Proof.
  induction a as [|[k v] a IH]; simpl; [reflexivity|].
  destruct (String.eqb f k); [reflexivity | exact IH].
Qed.

Section StatusLookup.

Variable g : string * LatamFormOps.FieldConfig -> list (string * option string).
Hypothesis g_keys : forall e p, In p (g e) -> fst p = fst e.

Lemma status_lookup_other (f : string) (l : list (string * option string)) :
  (forall p, In p l -> fst p <> f) -> FormFillerOps.status_lookup f l = None.
Proof.
  induction l as [|[k v] l IH]; intros H; simpl; [reflexivity|].
  destruct (String.eqb f k) eqn:E.
  - apply String.eqb_eq in E. exfalso. apply (H (k, v)); [left; reflexivity | simpl; congruence].
  - apply IH. intros p Hp. apply H. right. exact Hp.
Qed.

Lemma status_lookup_flat_map (f : string) (m : list (string * LatamFormOps.FieldConfig)) :
  NoDup (map fst m) ->
  FormFillerOps.status_lookup f (flat_map g m) =
  match LatamFormOps.config_of f m with
  | Some c => FormFillerOps.status_lookup f (g (f, c))
  | None => None
  end.
Proof.
  induction m as [|[k c] m IH]; intros Hnd; simpl; [reflexivity|].
  inversion Hnd as [|? ? Hk Hnd']; subst.
  rewrite status_lookup_app.
  destruct (String.eqb f k) eqn:E.
  - apply String.eqb_eq in E. subst k.
    destruct (FormFillerOps.status_lookup f (g (f, c))); [reflexivity|].
    apply status_lookup_other. intros p Hp Hpf.
    apply in_flat_map in Hp. destruct Hp as [e [He Hpe]].
    apply g_keys in Hpe. apply Hk. rewrite <- Hpf, Hpe. apply in_map. exact He.
  - rewrite (status_lookup_other f (g (k, c))); [apply IH; exact Hnd'|].
    intros p Hp Hpf. apply g_keys in Hp. simpl in Hp.
    apply String.eqb_neq in E. congruence.
Qed.

End StatusLookup.

Lemma completion_loop_spec (fields : list (string * option string)) (req : list string) (f : string) :
  let '(filled, empty) := FormFillerOps.completion_loop fields req in
  (In f filled <-> In f req /\ exists v, FormFillerOps.status_lookup f fields = Some v
                                         /\ FormFillerOps.is_filled v = true)
  /\ (In f empty <-> In f req /\ exists v, FormFillerOps.status_lookup f fields = Some v
                                           /\ FormFillerOps.is_filled v = false).
Proof.
  induction req as [|k req IH]; simpl.
  - split; split; [intros []| intros [[] _] | intros [] | intros [[] _]].
  - destruct (FormFillerOps.completion_loop fields req) as [filled empty].
    destruct IH as [IH1 IH2].
    destruct (FormFillerOps.status_lookup k fields) as [value|] eqn:Ek.
    + destruct (FormFillerOps.is_filled value) eqn:Ef; simpl; rewrite IH1, IH2;
        split; split.
      all: try solve [intros [->|H]; [split; [left; reflexivity | exists value; auto] | destruct H as [H1 H2]; split; [right; exact H1 | exact H2]]].
      all: try solve [intros [H1 H2]; split; [right; exact H1 | exact H2]].
      all: try solve [intros [[<-|H1] [v [Hv Hf]]];
               [left; reflexivity | right; split; [exact H1 | exists v; auto]]].
      all: try solve [intros [[<-|H1] [v [Hv Hf]]];
               [rewrite Ek in Hv; injection Hv as <-; congruence
               | split; [exact H1 | exists v; auto]]].
    + rewrite IH1, IH2. split; split.
      all: try solve [intros [H1 H2]; split; [right; exact H1 | exact H2]].
      all: intros [[<-|H1] [v [Hv Hf]]]; [congruence | split; [exact H1 | exists v; auto]].
Qed.

Section Completion.

Variable Page : Type.
Variable now_year : nat.
Variable query_value : Page -> string -> string + option string.
Variable page_url : Page -> string.

Lemma field_values_lookup (pg : Page) (f : string) :
  In f FormFillerOps.required_fields ->
  FormFillerOps.status_lookup f (LatamFormOps.field_values Page now_year query_value pg) =
  match query_value pg (field_selector now_year f) with
  | inl _ => Some None
  | inr None => None
  | inr (Some value) => Some (Some (if String.eqb value "" then "" else PyMore.strip value))
  end.
Proof.
  intros Hf. unfold LatamFormOps.field_values.
  rewrite status_lookup_flat_map.
  - unfold field_selector.
    simpl in Hf. destruct Hf as [<-|[<-|[<-|[<-|[<-|[<-|[]]]]]]]; simpl;
      destruct (query_value _ _) as [e|[v|]]; simpl; try rewrite String.eqb_refl; reflexivity.
  - intros [k c] p Hp. simpl in Hp.
    destruct (query_value pg (LatamFormOps.selector c)) as [e|[v|]];
      simpl in Hp; [destruct Hp as [<-|[]] | destruct Hp as [<-|[]] | destruct Hp]; reflexivity.
  - simpl. repeat constructor; simpl; intuition discriminate.
Qed.

(** X12: on the status read from the page by [get_form_status],
    [validate_form_completion] lists a required field as filled exactly
    when its element holds a value that is not blank, and as empty exactly
    when its element holds a blank value or the query raises; a required
    field with no element on the page is in neither list. *)
Theorem completion_of_page (pg : Page) (f : string) :
  In f FormFillerOps.required_fields ->
  match FormFillerOps.validate_form_completion true true
          (LatamFormOps.get_form_status Page now_year query_value page_url true true pg) with
  | FormFillerOps.Completion filled empty total url =>
      total = 6 /\ url = page_url pg
      /\ (In f filled <-> exists v, query_value pg (field_selector now_year f) = inr (Some v)
                                   /\ PyMore.strip v <> "")
      /\ (In f empty <-> (exists e, query_value pg (field_selector now_year f) = inl e)
                         \/ exists v, query_value pg (field_selector now_year f) = inr (Some v)
                                      /\ PyMore.strip v = "")
  | _ => False
  end.
Proof.
  intros Hf. unfold FormFillerOps.validate_form_completion, LatamFormOps.get_form_status.
  simpl negb. cbv iota.
  pose proof (completion_loop_spec (LatamFormOps.field_values Page now_year query_value pg)
                FormFillerOps.required_fields f) as H.
  destruct (FormFillerOps.completion_loop _ _) as [filled empty].
  destruct H as [H1 H2].
  rewrite (field_values_lookup pg f Hf) in H1, H2.
  split; [reflexivity|]. split; [reflexivity|]. rewrite H1, H2.
  destruct (query_value pg (field_selector now_year f)) as [e|[v|]].
  - split; split.
    + intros [_ [w [Hw Hfill]]]. injection Hw as <-. discriminate.
    + intros [w [Hw _]]. discriminate.
    + intros _. left. exists e. reflexivity.
    + intros _. split; [exact Hf|]. exists None. split; reflexivity.
  - split; split.
    + intros [_ [w [Hw Hfill]]]. injection Hw as <-. exists v. split; [reflexivity|].
      rewrite is_filled_reported in Hfill. intros Hs. rewrite Hs in Hfill. discriminate.
    + intros [w [Hw Hs]]. injection Hw as Hw. subst w. split; [exact Hf|].
      eexists. split; [reflexivity|]. rewrite is_filled_reported.
      destruct (String.eqb (PyMore.strip v) "") eqn:E; [apply String.eqb_eq in E; contradiction | reflexivity].
    + intros [_ [w [Hw Hfill]]]. injection Hw as <-. right. exists v. split; [reflexivity|].
      rewrite is_filled_reported in Hfill. apply String.eqb_eq.
      destruct (String.eqb (PyMore.strip v) ""); [reflexivity | discriminate].
    + intros [[e He]|[w [Hw Hs]]]; [discriminate|]. injection Hw as Hw. subst w. split; [exact Hf|].
      eexists. split; [reflexivity|]. rewrite is_filled_reported, Hs. reflexivity.
  - split; split.
    + intros [_ [w [Hw _]]]. discriminate.
    + intros [w [Hw _]]. discriminate.
    + intros [_ [w [Hw _]]]. discriminate.
    + intros [[e He]|[w [Hw _]]]; discriminate.
Qed.

End Completion.


(** ** [FormFiller] helpers *)

Lemma split_ws_aux_word (f s : string) (cur : list ascii) :
  (forall c, In c (list_ascii_of_string f) -> Py.is_space c = false) ->
  Py.split_ws_aux cur (f ++ s) = Py.split_ws_aux (rev (list_ascii_of_string f) ++ cur)%list s.
Proof.
  revert cur. induction f as [|c f IH]; intros cur Hf; simpl; [reflexivity|].
  rewrite (Hf c (or_introl eq_refl)). rewrite IH by (intros x Hx; apply Hf; right; exact Hx).
  rewrite <- app_assoc. reflexivity.
Qed.

Lemma replace_char_absent (c : ascii) (s : string) :
  (forall x, In x (list_ascii_of_string s) -> x <> c) ->
  Py.replace_empty (String c "") s = s.
Proof.
  unfold Py.replace_empty. induction s as [|x s IH]; intros Hs; simpl; [reflexivity|].
  destruct (ascii_dec c x) as [->|_].
  - exfalso. apply (Hs x); [left|]; reflexivity.
  - f_equal. apply IH. intros y Hy. apply Hs. right. exact Hy.
Qed.

Lemma replace_char_last (c : ascii) (s : string) :
  (forall x, In x (list_ascii_of_string s) -> x <> c) ->
  Py.replace_empty (String c "") (s ++ String c "") = s.
Proof.
  unfold Py.replace_empty. induction s as [|x s IH]; intros Hs; simpl.
  - destruct (ascii_dec c c) as [_|n]; [reflexivity | contradiction].
  - destruct (ascii_dec c x) as [->|_].
    + exfalso. apply (Hs x); [left|]; reflexivity.
    + f_equal. apply IH. intros y Hy. apply Hs. right. exact Hy.
Qed.

Lemma split_word_then_space (f rest : string) (c : ascii) (cur : list ascii) :
  (forall x, In x (list_ascii_of_string f) -> Py.is_space x = false) ->
  Py.is_space c = true ->
  (rev (list_ascii_of_string f) ++ cur)%list <> [] ->
  Py.split_ws_aux cur (f ++ String c rest)
  = string_of_list_ascii (rev (rev (list_ascii_of_string f) ++ cur)) :: Py.split_ws_aux [] rest.
Proof.
  intros Hf Hc Hne. rewrite split_ws_aux_word by exact Hf. simpl. rewrite Hc.
  destruct (rev (list_ascii_of_string f) ++ cur)%list; [contradiction | reflexivity].
Qed.

Lemma no_space_colon (f : string) :
  (forall x, In x (list_ascii_of_string f) -> Py.is_space x = false /\ x <> ":"%char /\ x <> "."%char) ->
  Py.replace_empty "." (Py.replace_empty ":" (f ++ ":")) = f.
Proof.
  intros Hf. rewrite replace_char_last by (intros x Hx; apply (Hf x Hx)).
  apply replace_char_absent. intros x Hx. apply (Hf x Hx).
Qed.

Lemma lower_app (a b : string) : PyMore.lower (a ++ b) = PyMore.lower a ++ PyMore.lower b.
Proof. induction a as [|c a IH]; simpl; [reflexivity | rewrite IH; reflexivity]. Qed.

Lemma split_msg_fill (f e : string) :
  (forall x, In x (list_ascii_of_string f) -> Py.is_space x = false) ->
  Py.split_ws ("Erro ao preencher campo " ++ f ++ ": " ++ e)
  = "Erro" :: "ao" :: "preencher" :: "campo" :: (f ++ ":") :: Py.split_ws e.
Proof.
  intros Hf. unfold Py.split_ws. simpl.
  rewrite split_ws_aux_word by exact Hf. simpl.
  rewrite app_nil_r, rev_involutive.
  rewrite string_of_list_ascii_app, string_of_list_ascii_of_string. reflexivity.
Qed.

Lemma split_msg_campo (f rest : string) :
  f <> "" ->
  (forall x, In x (list_ascii_of_string f) -> Py.is_space x = false) ->
  Py.split_ws ("Campo " ++ f ++ " " ++ rest) = "Campo" :: f :: Py.split_ws rest.
Proof.
  intros Hne Hf. unfold Py.split_ws. simpl.
  rewrite split_ws_aux_word by exact Hf. simpl. rewrite app_nil_r.
  destruct (rev (list_ascii_of_string f)) as [|c l] eqn:E.
  - exfalso. apply Hne. apply (f_equal (@rev ascii)) in E. rewrite rev_involutive in E.
    destruct f; [reflexivity | discriminate].
  - rewrite <- E, rev_involutive, string_of_list_ascii_of_string. reflexivity.
Qed.

(** X13: [_extract_field_name_from_result] gives back the field name of the
    three failure messages that name a field ([_fill_field]'s exception
    message, its read-only check, and [fill_single_field]'s unmapped field),
    for every non-empty field name without white space, [':'] or ['.']
    (all the keys of [field_mappings] are such names). *)
Theorem extract_field_name_round_trip (f e a : string) :
  f <> "" ->
  (forall c, In c (list_ascii_of_string f) ->
     Py.is_space c = false /\ c <> ":"%char /\ c <> "."%char) ->
  FormFillerOps._extract_field_name_from_result
    (fail ("Erro ao preencher campo " ++ f ++ ": " ++ e) a) = Some f
  /\ FormFillerOps._extract_field_name_from_result
       (fail ("Campo " ++ f ++ " não preenchido") a) = Some f
  /\ FormFillerOps._extract_field_name_from_result
       (fail ("Campo " ++ f ++ " não mapeado") a) = Some f.
Proof.
  intros Hne Hf.
  assert (Hsp : forall x, In x (list_ascii_of_string f) -> Py.is_space x = false)
    by (intros x Hx; apply (Hf x Hx)).
  assert (Hpl : Py.replace_empty "." (Py.replace_empty ":" f) = f).
  { rewrite (replace_char_absent ":"%char) by (intros x Hx; apply (Hf x Hx)).
    apply replace_char_absent. intros x Hx. apply (Hf x Hx). }
  split; [|split].
  - unfold FormFillerOps._extract_field_name_from_result. cbn [error_message fail].
    change (String.eqb ("Erro ao preencher campo " ++ f ++ ": " ++ e) "") with false.
    replace (Py.contains "campo" (PyMore.lower ("Erro ao preencher campo " ++ f ++ ": " ++ e)))
      with true by reflexivity.
    rewrite split_msg_fill by exact Hsp. simpl. f_equal. apply no_space_colon. exact Hf.
  - unfold FormFillerOps._extract_field_name_from_result. cbn [error_message fail].
    change (String.eqb ("Campo " ++ f ++ " não preenchido") "") with false.
    replace (Py.contains "campo" (PyMore.lower ("Campo " ++ f ++ " não preenchido")))
      with true by reflexivity.
    change (" não preenchido") with (" " ++ "não preenchido").
    rewrite split_msg_campo by assumption. simpl. rewrite Hpl. reflexivity.
  - unfold FormFillerOps._extract_field_name_from_result. cbn [error_message fail].
    change (String.eqb ("Campo " ++ f ++ " não mapeado") "") with false.
    replace (Py.contains "campo" (PyMore.lower ("Campo " ++ f ++ " não mapeado")))
      with true by reflexivity.
    change (" não mapeado") with (" " ++ "não mapeado").
    rewrite split_msg_campo by assumption. simpl. rewrite Hpl. reflexivity.
Qed.


Section RetryRuns.

Variable Page : Type.
Variable latam_form_present : bool.
Variable is_form_loaded : bool.
Variable _fill_field : Page -> string -> string -> ValidationResult * Page.

Lemma fill_single_field_events (pg : Page) (n v : string) :
  let '(_, _, tr) := FormFillerOps.fill_single_field Page latam_form_present is_form_loaded
                       _fill_field pg n v in
  tr = []
  \/ (tr = [Workflow.FillCall n v; Workflow.Pause] /\ In n Workflow.latam_fields
      /\ latam_form_present && is_form_loaded = true).
Proof.
  unfold FormFillerOps.fill_single_field.
  destruct latam_form_present, is_form_loaded; cbn [negb orb]; try (left; reflexivity).
  destruct (Py.mem n Workflow.latam_fields) eqn:Em; cbn [negb]; [|left; reflexivity].
  destruct (_fill_field pg n v). right. split; [reflexivity|].
  split; [apply mem_In; exact Em | reflexivity].
Qed.

(** X14: [retry_failed_fields] returns one result per input result, keeps
    every successful result at its position, makes at most one fill call
    per failed result, fills only keys of [field_mappings] with their value
    in [extracted_data], and fills nothing when the form is not available
    or not loaded. *)
Theorem retry_failed_fields_spec (fill_results : list ValidationResult) (d : dict) (pg : Page) :
  let '(rs, _, tr) := FormFillerOps.retry_failed_fields Page latam_form_present is_form_loaded
                        _fill_field fill_results d pg in
  length rs = length fill_results
  /\ (forall i r, nth_error fill_results i = Some r -> is_valid r = true -> nth_error rs i = Some r)
  /\ Workflow.fill_calls tr <= length (filter (fun r => negb (is_valid r)) fill_results)
  /\ (forall n v, In (Workflow.FillCall n v) tr ->
        In n Workflow.latam_fields /\ Workflow.dict_lookup n d = Some v)
  /\ (latam_form_present && is_form_loaded = false -> tr = []).
Proof.
  revert pg. induction fill_results as [|r rest IH]; intros pg.
  { simpl. split; [reflexivity|]. split; [intros [|i] ? H; discriminate|].
    split; [apply le_n|]. split; [intros ? ? []|reflexivity]. }
  simpl FormFillerOps.retry_failed_fields.
  assert (Hkeep : forall pg',
    let '(rs, _, tr) := (let '(rs, pg1, tr) := FormFillerOps.retry_failed_fields Page
                           latam_form_present is_form_loaded _fill_field rest d pg' in
                         (r :: rs, pg1, tr)) in
    length rs = length (r :: rest)
    /\ (forall i r', nth_error (r :: rest) i = Some r' -> is_valid r' = true -> nth_error rs i = Some r')
    /\ Workflow.fill_calls tr <= length (filter (fun r => negb (is_valid r)) (r :: rest))
    /\ (forall n v, In (Workflow.FillCall n v) tr ->
          In n Workflow.latam_fields /\ Workflow.dict_lookup n d = Some v)
    /\ (latam_form_present && is_form_loaded = false -> tr = [])).
  { intros pg'. specialize (IH pg').
    destruct (FormFillerOps.retry_failed_fields Page latam_form_present is_form_loaded _fill_field
                rest d pg') as [[rs pg1] tr].
    destruct IH as [H1 [H2 [H3 [H4 H5]]]].
    split; [simpl; f_equal; exact H1|].
    split; [intros [|i] r' Hi Hv; simpl in Hi |- *; [exact Hi | apply H2; assumption]|].
    split; [simpl; destruct (is_valid r); simpl; lia|].
    split; assumption. }
  destruct (is_valid r) eqn:Hr; [apply Hkeep|].
  destruct (FormFillerOps._extract_field_name_from_result r) as [fname|]; [|apply Hkeep].
  destruct (String.eqb fname ""); [apply Hkeep|].
  destruct (Workflow.dict_lookup fname d) as [value|] eqn:Ed; [|apply Hkeep].
  pose proof (fill_single_field_events pg fname value) as Hs.
  destruct (FormFillerOps.fill_single_field Page latam_form_present is_form_loaded _fill_field
              pg fname value) as [[rr pg1] tr1].
  specialize (IH pg1).
  destruct (FormFillerOps.retry_failed_fields Page latam_form_present is_form_loaded _fill_field
              rest d pg1) as [[rs pg2] tr2].
  destruct IH as [H1 [H2 [H3 [H4 H5]]]].
  split; [simpl; f_equal; exact H1|].
  split; [intros [|i] r' Hi Hv; simpl in Hi |- *; [injection Hi as <-; congruence | apply H2; assumption]|].
  unfold Workflow.fill_calls in *. rewrite filter_app, length_app.
  destruct Hs as [->|[-> [Hin Hpl]]].
  - simpl. rewrite Hr. simpl. split; [lia|].
    split; [exact H4|]. exact H5.
  - simpl. rewrite Hr. simpl. split; [lia|].
    split.
    + intros n v [Hn|[Hn|Hn]]; [injection Hn as <- <-; split; assumption | discriminate | apply H4; exact Hn].
    + intros Hf. rewrite Hpl in Hf. discriminate.
Qed.

End RetryRuns.


(** ** [RulesEngine] allow-lists and names *)






Lemma upper_char_not_lower (c : ascii) : Py.is_lower (Py.upper_char c) = false.
Proof.
  destruct c as [b0 b1 b2 b3 b4 b5 b6 b7].
  destruct b0, b1, b2, b3, b4, b5, b6, b7; reflexivity.
Qed.

Lemma upper_no_lower (s : string) (c : ascii) :
  In c (list_ascii_of_string (Py.upper s)) -> Py.is_lower c = false.
Proof.
  induction s as [|x s IH]; simpl; [intros []|].
  intros [<-|H]; [apply upper_char_not_lower | exact (IH H)].
Qed.

Lemma replace_empty_aux_chars (old : string) (k : nat) (s : string) (c : ascii) :
  In c (list_ascii_of_string (Py.replace_empty_aux old k s)) -> In c (list_ascii_of_string s).
Proof.
  revert k. induction s as [|x s IH]; intros k;
    cbn [Py.replace_empty_aux list_ascii_of_string]; [intros []|].
  destruct k as [|k].
  - destruct (String.prefix old (String x s)).
    + intros H. right. exact (IH _ H).
    + simpl. intros [<-|H]; [left; reflexivity | right; exact (IH _ H)].
  - intros H. right. exact (IH _ H).
Qed.

Lemma split_ws_aux_tokens (P : ascii -> Prop) (cur : list ascii) (s : string) :
  (forall c, In c cur -> P c /\ Py.is_space c = false) ->
  (forall c, In c (list_ascii_of_string s) -> P c) ->
  Forall (fun t => t <> "" /\ forall c, In c (list_ascii_of_string t) ->
                                P c /\ Py.is_space c = false)
         (Py.split_ws_aux cur s).
Proof.
  assert (Htok : forall l, l <> [] -> (forall c, In c l -> P c /\ Py.is_space c = false) ->
            string_of_list_ascii (rev l) <> ""
            /\ forall c, In c (list_ascii_of_string (string_of_list_ascii (rev l))) ->
                    P c /\ Py.is_space c = false).
  { intros l Hne Hl. rewrite list_ascii_of_string_of_list_ascii. split.
    - intros H. apply string_of_list_nil in H. apply Hne.
      apply (f_equal (@rev ascii)) in H. rewrite rev_involutive in H. exact H.
    - intros c Hc. apply Hl. apply in_rev. exact Hc. }
  revert cur. induction s as [|x s IH]; intros cur Hcur Hs; simpl.
  - destruct cur as [|y cur']; [constructor|].
    constructor; [apply Htok; [discriminate | exact Hcur] | constructor].
  - destruct (Py.is_space x) eqn:Ex.
    + assert (IH' := IH [] (fun c H => match H with end)
                        (fun c H => Hs c (or_intror H))).
      destruct cur as [|y cur']; [exact IH'|].
      constructor; [apply Htok; [discriminate | exact Hcur] | exact IH'].
    + apply IH; [|intros c H; apply Hs; right; exact H].
      intros c [<-|H]; [split; [apply Hs; left; reflexivity | exact Ex] | apply Hcur; exact H].
Qed.

(** X16: [_normalize_name] always returns its words joined by single
    spaces: non-empty words with no white space and no lower-case ASCII letter
    (so no leading, trailing or repeated space). *)
Theorem normalize_name_shape (name : string) :
  exists ts,
    Names._normalize_name name = Py.join " " ts
    /\ Forall (fun t => t <> "" /\ forall c, In c (list_ascii_of_string t) ->
                                   Py.is_lower c = false /\ Py.is_space c = false) ts.
Proof.
  unfold Names._normalize_name.
  eexists. split; [reflexivity|].
  apply split_ws_aux_tokens; [intros c []|].
  assert (H : forall l acc, (forall c, In c (list_ascii_of_string acc) -> Py.is_lower c = false) ->
            forall c, In c (list_ascii_of_string
                              (fold_left (fun acc title => Py.replace_empty title acc) l acc)) ->
                      Py.is_lower c = false).
  { induction l as [|t l IH]; intros acc Hacc; simpl; [exact Hacc|].
    apply IH. intros c Hc. apply Hacc. exact (replace_empty_aux_chars _ _ _ _ Hc). }
  apply H. apply upper_no_lower.
Qed.

Lemma diff_loop_count (xs ys : list ascii) (d : nat) :
  d <= 3 -> Side7a10112.diff_loop d xs ys = Nat.leb (d + mismatches xs ys) 3.
Proof.
  revert ys d. induction xs as [|x xs IH]; intros ys d Hd.
  - simpl. rewrite Nat.add_0_r. reflexivity.
  - destruct ys as [|y ys]; [simpl; rewrite Nat.add_0_r; reflexivity|].
    simpl. destruct (Ascii.eqb x y).
    + apply IH. exact Hd.
    + destruct (Nat.ltb 3 (S d)) eqn:E.
      * apply Nat.ltb_lt in E. symmetry. apply Nat.leb_gt. lia.
      * apply Nat.ltb_ge in E. rewrite IH by lia. f_equal. lia.
Qed.

Lemma mismatches_sym (xs ys : list ascii) : mismatches xs ys = mismatches ys xs.
Proof.
  revert ys. induction xs as [|x xs IH]; intros [|y ys]; simpl; try reflexivity.
  rewrite Ascii.eqb_sym, IH. reflexivity.
Qed.

(** X17: the 7a10112 side's [_is_orthographic_correction] pads both names
    with spaces to the longer length and approves exactly when at most 3
    positions differ; so it does not depend on the order of the names. *)
Theorem orthographic_7a10112_hamming (old_name new_name : string) :
  let max_len := Nat.max (String.length old_name) (String.length new_name) in
  Side7a10112._is_orthographic_correction old_name new_name
  = Nat.leb (mismatches (Side7a10112.ljust old_name max_len)
                        (Side7a10112.ljust new_name max_len)) 3
  /\ Side7a10112._is_orthographic_correction old_name new_name
     = Side7a10112._is_orthographic_correction new_name old_name.
Proof.
  unfold Side7a10112._is_orthographic_correction.
  rewrite !diff_loop_count by lia. simpl.
  split; [reflexivity|].
  rewrite Nat.max_comm, mismatches_sym. reflexivity.
Qed.

Lemma strs_eqb_eq (xs ys : list string) : Names.strs_eqb xs ys = true <-> xs = ys.
Proof.
  revert ys. induction xs as [|x xs IH]; intros [|y ys]; simpl;
    try (split; intros H; [discriminate|]; discriminate); [tauto|].
  rewrite andb_true_iff, String.eqb_eq, IH.
  split; [intros [-> ->]; reflexivity | intros H; injection H as -> ->; tauto].
Qed.

Lemma strs_eqb_rev_sym (xs ys : list string) :
  Names.strs_eqb xs (rev ys) = Names.strs_eqb ys (rev xs).
Proof.
  apply Bool.eq_true_iff_eq. rewrite !strs_eqb_eq.
  split; intros ->; rewrite rev_involutive; reflexivity.
Qed.

(** X18: on both sides of the merge, the inverted-names test does not
    depend on the order of the two names. *)
Theorem inverted_names_symmetric (old_name new_name : string) :
  Head._is_inverted_names old_name new_name = Head._is_inverted_names new_name old_name
  /\ Side7a10112._is_inverted_names old_name new_name
     = Side7a10112._is_inverted_names new_name old_name.
Proof.
  split.
  - unfold Head._is_inverted_names. simpl.
    assert (Hon : forall sep, Head.inverted_on sep old_name new_name
                              = Head.inverted_on sep new_name old_name).
    { intros sep. unfold Head.inverted_on.
      rewrite (orb_comm (Py.contains _ new_name)).
      destruct (Py.contains (String sep "") old_name || Py.contains (String sep "") new_name);
        [|reflexivity].
      set (po := if Py.contains (String sep "") old_name then Py.split_on sep old_name else [old_name]).
      set (pn := if Py.contains (String sep "") new_name then Py.split_on sep new_name else [new_name]).
      rewrite Nat.eqb_sym, strs_eqb_rev_sym.
      destruct (Nat.eqb (length pn) (length po)) eqn:E; [|reflexivity].
      apply Nat.eqb_eq in E. rewrite E. reflexivity. }
    rewrite !Hon. reflexivity.
  - unfold Side7a10112._is_inverted_names.
    rewrite Nat.eqb_sym, strs_eqb_rev_sym. reflexivity.
Qed.


(** ** Witnesses *)

Lemma parse_fields_pnr_passes_check_witness :
  Workflow.field_lookup "pnr" (SabreFields.parse_fields true demo_screen) = Some "ABC123"
  /\ is_valid (RulesEngine.validate_pnr_format "ABC123") = true.
Proof.
  split; [vm_compute; reflexivity|].
  apply (parse_fields_pnr_passes_check demo_screen "ABC123"). vm_compute. reflexivity.
Defined.

Lemma parse_fields_date_month_only_witness :
  Workflow.field_lookup "data_voo" (SabreFields.parse_fields true demo_screen) = Some "13MAR"
  /\ RulesEngine.validate_date_format 2026 "13MAR" =
     match RulesEngine.lookup (Py.drop 2 "13MAR") RulesEngine.month_map with
     | Some month => (true, Py.take 2 "13MAR" ++ "/" ++ month ++ "/" ++ Py.str_of_nat 2026)
     | None => (false, "Mês inválido: " ++ Py.drop 2 "13MAR")
     end.
Proof.
  split; [vm_compute; reflexivity|].
  apply (parse_fields_date_month_only demo_screen "13MAR" 2026). vm_compute. reflexivity.
Defined.

Lemma no_auth_code_class_unchecked_witness :
  Re.search SabreFields.auth_pat demo_screen_noauth = None
  /\ (let fs := SabreFields.parse_fields true demo_screen_noauth in
      forallb is_valid (Workflow.validate_integrity fs)
      = (match Workflow.field_lookup "status" fs with
         | Some s => is_valid (RulesEngine.validate_flight_status s) | None => true end)
        && (match Workflow.field_lookup "carrier" fs with
            | Some c => is_valid (RulesEngine.validate_carrier_code c) | None => true end)).
Proof.
  split; [vm_compute; reflexivity|].
  apply (no_auth_code_class_unchecked demo_screen_noauth). vm_compute. reflexivity.
Defined.

Lemma workflow_fills_only_after_checks_witness :
  let '(res, tr) :=
    Workflow.process_complete_workflow unit unit nat
      (fun _ => inr (Some tt, sabre_text_all)) (fun _ => true)
      (fun _ => demo_fields_eligible) true 0 (fun pg _ _ => (ok, S pg)) (fun _ => ok) tt in
  (tr <> [] \/ Workflow.submission_result res <> None)
  /\ exists image t,
       inr (Some tt, sabre_text_all) = inr (A := string) (image, t)
       /\ t <> ""
       /\ SabreScreen.detect_sabre_pattern (fun _ : unit => true) image t = true
       /\ forallb is_valid (Workflow.validate_integrity demo_fields_eligible) = true
       /\ true = true
       /\ tr = fill_events (Workflow._map_sabre_to_latam demo_fields_eligible) Workflow.latam_fields.
Proof.
  pose proof (workflow_fills_only_after_checks unit unit nat
                (fun _ => inr (Some tt, sabre_text_all)) (fun _ => true)
                (fun _ => demo_fields_eligible) true 0 (fun pg _ _ => (ok, S pg)) (fun _ => ok) tt) as H.
  destruct (Workflow.process_complete_workflow unit unit nat
              (fun _ => inr (Some tt, sabre_text_all)) (fun _ => true)
              (fun _ => demo_fields_eligible) true 0 (fun pg _ _ => (ok, S pg)) (fun _ => ok) tt)
    as [res tr] eqn:E.
  assert (Hs : Workflow.submission_result res <> None).
  { apply (f_equal fst) in E. vm_compute in E. subst res. discriminate. }
  split; [right; exact Hs|]. apply H. right. exact Hs.
Defined.

Lemma workflow_fixed_fields_witness :
  let '(res, tr) :=
    Workflow.process_complete_workflow unit unit nat
      (fun _ => inr (Some tt, sabre_text_all)) (fun _ => true)
      (fun _ => demo_fields_eligible) true 0 (fun pg _ _ => (ok, S pg)) (fun _ => ok) tt in
  In (Workflow.FillCall "cidade" "SCL") tr
  /\ ("cidade" <> "pais"
      /\ ("cidade" = "cidade" -> "SCL" = "SCL")
      /\ ("cidade" = "departamento" -> "SCL" = "Departamento Técnico")
      /\ ("cidade" = "razao" -> "SCL" = "PIC - Upgrade")
      /\ ("cidade" = "autorizador" -> "SCL" = "Supervisor Autorizado")
      /\ ("cidade" = "cto_des" -> "SCL" = "UPGRADE")).
Proof.
  pose proof (workflow_fixed_fields unit unit nat
                (fun _ => inr (Some tt, sabre_text_all)) (fun _ => true)
                (fun _ => demo_fields_eligible) true 0 (fun pg _ _ => (ok, S pg)) (fun _ => ok) tt
                "cidade" "SCL") as H.
  destruct (Workflow.process_complete_workflow unit unit nat
              (fun _ => inr (Some tt, sabre_text_all)) (fun _ => true)
              (fun _ => demo_fields_eligible) true 0 (fun pg _ _ => (ok, S pg)) (fun _ => ok) tt)
    as [res tr] eqn:E.
  assert (Hin : In (Workflow.FillCall "cidade" "SCL") tr).
  { apply (f_equal snd) in E. vm_compute in E. subst tr. simpl. tauto. }
  split; [exact Hin | apply H; exact Hin].
Defined.

Lemma workflow_empty_parse_fills_defaults_witness :
  let '(res, tr) :=
    Workflow.process_complete_workflow unit unit nat
      (fun _ => inr (Some tt, sabre_text_all)) (fun _ => true)
      (fun _ => []) true 0 (fun pg _ _ => (ok, S pg)) (fun _ => ok) tt in
  tr = [Workflow.FillCall "cidade" "SCL"; Workflow.Pause;
        Workflow.FillCall "departamento" "Departamento Técnico"; Workflow.Pause;
        Workflow.FillCall "razao" "PIC - Upgrade"; Workflow.Pause;
        Workflow.FillCall "autorizador" "Supervisor Autorizado"; Workflow.Pause;
        Workflow.FillCall "cto_des" "UPGRADE"; Workflow.Pause]
  /\ length (Workflow.field_results res) = 5
  /\ Workflow.submission_result res <> None.
Proof.
  apply (workflow_empty_parse_fills_defaults unit unit nat
           (fun _ => inr (Some tt, sabre_text_all)) (fun _ => true)
           (fun _ => []) true 0 (fun pg _ _ => (ok, S pg)) (fun _ => ok) tt (Some tt) sabre_text_all).
  - reflexivity.
  - discriminate.
  - vm_compute. reflexivity.
  - reflexivity.
  - reflexivity.
Defined.

Lemma workflow_vuelo_fill_fails_witness :
  let '(res, tr) :=
    Workflow.process_complete_workflow unit unit nat
      (fun _ => inr (Some tt, sabre_text_all)) (fun _ => true)
      (fun _ => demo_fields_eligible) true 0
      (LatamFormOps.fill_field_named nat 2026 (fun pg _ => (S pg, None)) (fun pg _ => (pg, None))
         (fun pg _ => (S pg, None)) (fun pg _ => (S pg, None)) (fun pg _ _ => (S pg, None))
         (fun pg _ _ _ => (S pg, None)) (fun _ _ => inr (Some "CL")))
      (fun _ => ok) tt in
  In (Workflow.FillCall "vuelo" "3456") tr
  /\ Workflow.success res = false
  /\ In (fail "Erro ao preencher campo vuelo: name 're' is not defined"
              "Verificar se o campo está visível") (Workflow.field_results res).
Proof.
  pose proof (workflow_vuelo_fill_fails nat 2026 (fun pg _ => (S pg, None)) (fun pg _ => (pg, None))
                (fun pg _ => (S pg, None)) (fun pg _ => (S pg, None)) (fun pg _ _ => (S pg, None))
                (fun pg _ _ _ => (S pg, None)) (fun _ _ => inr (Some "CL"))
                unit unit (fun _ => inr (Some tt, sabre_text_all)) (fun _ => true)
                (fun _ => demo_fields_eligible) true 0 (fun _ => ok) tt "3456") as H.
  destruct (Workflow.process_complete_workflow unit unit nat
      (fun _ => inr (Some tt, sabre_text_all)) (fun _ => true)
      (fun _ => demo_fields_eligible) true 0
      (LatamFormOps.fill_field_named nat 2026 (fun pg _ => (S pg, None)) (fun pg _ => (pg, None))
         (fun pg _ => (S pg, None)) (fun pg _ => (S pg, None)) (fun pg _ _ => (S pg, None))
         (fun pg _ _ _ => (S pg, None)) (fun _ _ => inr (Some "CL")))
      (fun _ => ok) tt) as [res tr] eqn:E.
  assert (Hin : In (Workflow.FillCall "vuelo" "3456") tr).
  { apply (f_equal snd) in E. vm_compute in E. subst tr. simpl. tauto. }
  split; [exact Hin | apply H; exact Hin].
Defined.

Lemma completion_of_page_witness :
  In "pnr" FormFillerOps.required_fields
  /\ match FormFillerOps.validate_form_completion true true
             (LatamFormOps.get_form_status unit 2026
                (fun _ s => if String.eqb s (field_selector 2026 "pnr")
                            then inr (Some "ABC123") else inr (Some "  "))
                (fun _ => "https://www.latam.com/form") true true tt) with
     | FormFillerOps.Completion filled empty total url =>
         total = 6 /\ url = "https://www.latam.com/form"
         /\ In "pnr" filled /\ ~ In "pnr" empty
     | _ => False
     end.
Proof.
  split; [left; reflexivity|].
  pose proof (completion_of_page unit 2026
                (fun _ s => if String.eqb s (field_selector 2026 "pnr")
                            then inr (Some "ABC123") else inr (Some "  "))
                (fun _ => "https://www.latam.com/form") tt "pnr" (or_introl eq_refl)) as H.
  destruct (FormFillerOps.validate_form_completion _ _ _) as [| |filled empty total url];
    try exact H.
  destruct H as [Ht [Hu [Hf He]]].
  rewrite String.eqb_refl in Hf, He.
  split; [exact Ht|]. split; [exact Hu|]. split.
  - apply Hf. exists "ABC123". split; [reflexivity | discriminate].
  - intros Hin. apply He in Hin.
    destruct Hin as [[e Hx]|[v [Hv Hs]]]; [discriminate|].
    injection Hv as <-. discriminate.
Defined.

Lemma extract_field_name_round_trip_witness :
  "vuelo" <> ""
  /\ FormFillerOps._extract_field_name_from_result
       (fail ("Erro ao preencher campo " ++ "vuelo" ++ ": " ++ "name 're' is not defined")
             "Verificar se o campo está visível") = Some "vuelo"
  /\ FormFillerOps._extract_field_name_from_result
       (fail ("Campo " ++ "vuelo" ++ " não preenchido") "Verificar se o campo está visível")
     = Some "vuelo"
  /\ FormFillerOps._extract_field_name_from_result
       (fail ("Campo " ++ "vuelo" ++ " não mapeado") "Verificar se o campo está visível")
     = Some "vuelo".
Proof.
  split; [discriminate|].
  apply (extract_field_name_round_trip "vuelo" "name 're' is not defined"
           "Verificar se o campo está visível").
  - discriminate.
  - intros c Hc. simpl in Hc.
    repeat (destruct Hc as [<-|Hc]; [split; [reflexivity | split; discriminate]|]).
    destruct Hc.
Defined.

